(** * Workout API: the Athlete resource handlers

    A shallow embedding of [workout_api/atleta/controller.py]: the six route
    handlers [post], [query_all], [query_by_name_or_cpf], [query_by_id],
    [patch] and [delete], written over an explicit model of the SQLAlchemy
    session they receive.  Handlers are computations in a state-and-exception
    monad over the session; [raise HTTPException(...)] is an exception of that
    monad and [try ... except] is [try_except]. *)

From Stdlib Require Import String Ascii ZArith NArith List Bool Lia PrimFloat.
Import ListNotations.

Local Open Scope Z_scope.
Local Open Scope list_scope.

(** ** Values carried by the handlers *)

(** [uuid.UUID], as its 128-bit integer value. *)
Definition UUID := N.

(** [datetime.datetime] (naive, UTC), as microseconds since the epoch.  The
    handlers only carry it. *)
Definition datetime := Z.

(** Python's [str(uuid)]: 32 lower-case hexadecimal digits grouped 8-4-4-4-12. *)
Definition hex_char (d : N) : ascii :=
  match d with
  | 0%N => "0" | 1%N => "1" | 2%N => "2" | 3%N => "3"
  | 4%N => "4" | 5%N => "5" | 6%N => "6" | 7%N => "7"
  | 8%N => "8" | 9%N => "9" | 10%N => "a" | 11%N => "b"
  | 12%N => "c" | 13%N => "d" | 14%N => "e" | _ => "f"
  end%char.

Fixpoint hex_digits (width : nat) (n : N) (acc : string) : string :=
  match width with
  | O => acc
  | S w => hex_digits w (N.div n 16) (String (hex_char (N.modulo n 16)) acc)
  end.

Definition str_uuid (u : UUID) : string :=
  let h := hex_digits 32 u EmptyString in
  String.concat "-"
    [substring 0 8 h; substring 8 4 h; substring 12 4 h;
     substring 16 4 h; substring 20 12 h].

(** An f-string is the concatenation of its pieces. *)
Definition fstring (pieces : list string) : string := String.concat "" pieces.

(** Truthiness of an optional [str] query parameter: [None] and [''] are
    falsy. *)
Definition truthy (s : option string) : bool :=
  match s with
  | None => false
  | Some s => negb (String.eqb s "")
  end.

(** ** Status codes ([fastapi.status]) *)

Definition HTTP_200_OK : Z := 200.
Definition HTTP_201_CREATED : Z := 201.
Definition HTTP_204_NO_CONTENT : Z := 204.
Definition HTTP_303_SEE_OTHER : Z := 303.
Definition HTTP_400_BAD_REQUEST : Z := 400.
Definition HTTP_404_NOT_FOUND : Z := 404.
Definition HTTP_500_INTERNAL_SERVER_ERROR : Z := 500.

(** ** Schemas and models

    Modelled from the spec: [workout_api/atleta/schemas.py] and the three
    [models.py] are not part of the sources at hand.  The fields are the ones
    of the spec's data model (name, national id, weight, height, sex); the
    nested [categoria] and [centro_treinamento] objects carry a [nome], and the
    category and training-centre rows carry the [pk_id] read by [post]. *)

Module CategoriaIn.
Record t := mk { nome : string }.
End CategoriaIn.

Module CentroTreinamentoAtleta.
Record t := mk { nome : string }.
End CentroTreinamentoAtleta.

Module AtletaIn.
Record t := mk {
  nome : string;
  cpf : string;
  peso : float;
  altura : float;
  sexo : string;
  categoria : CategoriaIn.t;
  centro_treinamento : CentroTreinamentoAtleta.t
}.
End AtletaIn.

Module AtletaOut.
Record t := mk {
  id : UUID;
  created_at : datetime;
  nome : string;
  cpf : string;
  peso : float;
  altura : float;
  sexo : string;
  categoria : CategoriaIn.t;
  centro_treinamento : CentroTreinamentoAtleta.t
}.
End AtletaOut.

(** The body of a partial update.  A field is [None] when the body did not
    set it ([model_dump(exclude_unset=True)] leaves it out). *)
Module AtletaUpdate.
Record t := mk {
  nome : option string;
  cpf : option string;
  peso : option float;
  altura : option float;
  sexo : option string
}.
End AtletaUpdate.

Module CategoriaModel.
Record t := mk { pk_id : Z; nome : string }.
End CategoriaModel.

Module CentroTreinamentoModel.
Record t := mk { pk_id : Z; nome : string }.
End CentroTreinamentoModel.

(** An athlete row.  [pk_id] is the store's own key: [None] on an object that
    was never flushed, assigned from the table's sequence by the insert. *)
Module AtletaModel.
Record t := mk {
  pk_id : option Z;
  id : UUID;
  created_at : datetime;
  nome : string;
  cpf : string;
  peso : float;
  altura : float;
  sexo : string;
  categoria_id : Z;
  centro_treinamento_id : Z
}.

Definition has_pk (k : Z) (a : t) : bool :=
  match pk_id a with
  | Some p => Z.eqb p k
  | None => false
  end.

Definition with_pk (k : Z) (a : t) : t :=
  mk (Some k) (id a) (created_at a) (nome a) (cpf a) (peso a) (altura a)
     (sexo a) (categoria_id a) (centro_treinamento_id a).
End AtletaModel.

(** ** Exceptions and outcomes *)

Inductive exn : Type :=
| HTTPException (status_code : Z) (detail : string)
| IntegrityError          (* sqlalchemy.exc.IntegrityError: a constraint *)
| DBAPIError              (* any other error reported by the store *)
| StaleDataError          (* an UPDATE or DELETE matched no row *)
| InvalidRequestError     (* the object is not persistent *)
| AttributeError.         (* attribute access on None *)

Inductive outcome (A : Type) : Type :=
| Return (a : A)
| Raise (e : exn).
Arguments Return {A} a.
Arguments Raise {A} e.

(** What the framework answers: the route's [status_code] on return, the
    exception's own code for an [HTTPException], 500 for anything else. *)
Definition response_status {A} (route_status : Z) (o : outcome A) : Z :=
  match o with
  | Return _ => route_status
  | Raise (HTTPException c _) => c
  | Raise _ => HTTP_500_INTERNAL_SERVER_ERROR
  end.

(** ** The relational store

    Modelled from the spec: the store is an external collaborator (section 6).
    Tables are lists in the store's default order; the athlete table enforces
    the uniqueness of [cpf] and the two foreign keys.  What the store does with
    a negative LIMIT or OFFSET is left to the store by the spec, so it is a
    parameter of the database: a [Strict] store rejects the statement, a
    [Lenient] one reads a negative LIMIT as no limit and a negative OFFSET
    as zero. *)

Inductive bounds_rule : Type := Strict | Lenient.

Record Database := mkDatabase {
  negative_bounds : bounds_rule;
  categorias : list CategoriaModel.t;
  centros_treinamento : list CentroTreinamentoModel.t;
  atletas : list AtletaModel.t;
  atletas_pk_seq : Z
}.

Definition set_atletas (db : Database) (rows : list AtletaModel.t) (seq : Z)
  : Database :=
  mkDatabase (negative_bounds db) (categorias db) (centros_treinamento db)
             rows seq.

(** *** Statements *)

Inductive criterion : Type :=
| NomeEq (nome : string)
| CpfEq (cpf : string)
| IdEq (id : UUID).

(** [select(AtletaModel)] with the clauses added so far. *)
Record Select := mkSelect {
  whereclause : list criterion;
  limit_clause : option Z;
  offset_clause : option Z
}.

Definition select_AtletaModel : Select := mkSelect [] None None.

Definition filter_ (q : Select) (c : criterion) : Select :=
  mkSelect (whereclause q ++ [c]) (limit_clause q) (offset_clause q).

Definition limit_ (q : Select) (n : Z) : Select :=
  mkSelect (whereclause q) (Some n) (offset_clause q).

Definition offset_ (q : Select) (n : Z) : Select :=
  mkSelect (whereclause q) (limit_clause q) (Some n).

Definition satisfies (a : AtletaModel.t) (c : criterion) : bool :=
  match c with
  | NomeEq n => String.eqb (AtletaModel.nome a) n
  | CpfEq c => String.eqb (AtletaModel.cpf a) c
  | IdEq u => N.eqb (AtletaModel.id a) u
  end.

Definition rows_where (cs : list criterion) (rows : list AtletaModel.t)
  : list AtletaModel.t :=
  filter (fun a => forallb (satisfies a) cs) rows.

Definition apply_offset {A} (rule : bounds_rule) (o : option Z) (rows : list A)
  : outcome (list A) :=
  match o with
  | None => Return rows
  | Some n =>
      if n <? 0 then
        match rule with
        | Strict => Raise DBAPIError
        | Lenient => Return rows
        end
      else Return (skipn (Z.to_nat n) rows)
  end.

Definition apply_limit {A} (rule : bounds_rule) (l : option Z) (rows : list A)
  : outcome (list A) :=
  match l with
  | None => Return rows
  | Some n =>
      if n <? 0 then
        match rule with
        | Strict => Raise DBAPIError
        | Lenient => Return rows
        end
      else Return (firstn (Z.to_nat n) rows)
  end.

(** SELECT ... WHERE ... LIMIT l OFFSET o: the rows that satisfy every
    criterion, without the first [o], cut after [l]. *)
Definition run_select (db : Database) (q : Select)
  : outcome (list AtletaModel.t) :=
  match apply_offset (negative_bounds db) (offset_clause q)
                     (rows_where (whereclause q) (atletas db)) with
  | Raise e => Raise e
  | Return rows => apply_limit (negative_bounds db) (limit_clause q) rows
  end.

(** [.scalars().all()] and [.scalars().first()] on the rows of a result. *)
Definition scalars_all {A} (rows : list A) : list A := rows.
Definition scalars_first {A} (rows : list A) : option A := hd_error rows.

(** The relationships of an athlete row, loaded with the row. *)
Definition categoria_of (db : Database) (a : AtletaModel.t)
  : option CategoriaModel.t :=
  find (fun c => CategoriaModel.pk_id c =? AtletaModel.categoria_id a)
       (categorias db).

Definition centro_treinamento_of (db : Database) (a : AtletaModel.t)
  : option CentroTreinamentoModel.t :=
  find (fun c => CentroTreinamentoModel.pk_id c
                 =? AtletaModel.centro_treinamento_id a)
       (centros_treinamento db).

(** *** Writes: INSERT, UPDATE and DELETE on the athlete table *)

Definition cpf_held_by_other (cpf : string) (a : AtletaModel.t)
           (rows : list AtletaModel.t) : bool :=
  existsb (fun r => String.eqb (AtletaModel.cpf r) cpf
                    && negb (match AtletaModel.pk_id a with
                             | Some k => AtletaModel.has_pk k r
                             | None => false
                             end)) rows.

Definition references_exist (db : Database) (a : AtletaModel.t) : bool :=
  match categoria_of db a, centro_treinamento_of db a with
  | Some _, Some _ => true
  | _, _ => false
  end.

Definition insert_row (db : Database) (a : AtletaModel.t) : outcome Database :=
  if cpf_held_by_other (AtletaModel.cpf a) a (atletas db) then
    Raise IntegrityError
  else if negb (references_exist db a) then Raise IntegrityError
  else Return (set_atletas db
                 (atletas db ++ [AtletaModel.with_pk (atletas_pk_seq db) a])
                 (atletas_pk_seq db + 1)).

Definition update_row (db : Database) (a : AtletaModel.t) : outcome Database :=
  match AtletaModel.pk_id a with
  | None => Raise InvalidRequestError
  | Some k =>
      if negb (existsb (AtletaModel.has_pk k) (atletas db)) then
        Raise StaleDataError
      else if cpf_held_by_other (AtletaModel.cpf a) a (atletas db) then
        Raise IntegrityError
      else Return (set_atletas db
                     (map (fun r => if AtletaModel.has_pk k r then a else r)
                          (atletas db))
                     (atletas_pk_seq db))
  end.

Definition delete_row (db : Database) (a : AtletaModel.t) : outcome Database :=
  match AtletaModel.pk_id a with
  | None => Raise InvalidRequestError
  | Some k =>
      if negb (existsb (AtletaModel.has_pk k) (atletas db)) then
        Raise StaleDataError
      else Return (set_atletas db
                     (filter (fun r => negb (AtletaModel.has_pk k r))
                             (atletas db))
                     (atletas_pk_seq db))
  end.

(** A transaction: the writes one after the other on a working copy, all of
    them or none. *)
Fixpoint write_all (write : Database -> AtletaModel.t -> outcome Database)
         (db : Database) (objects : list AtletaModel.t) : outcome Database :=
  match objects with
  | [] => Return db
  | a :: rest =>
      match write db a with
      | Return db' => write_all write db' rest
      | Raise e => Raise e
      end
  end.

(** ** The session ([DatabaseDependency])

    The unit of work of the request: the committed database it reads, the
    objects waiting for the next flush, and the record of the calls made on
    it (kept only to state what a handler did or did not attempt). *)

Inductive statement : Type :=
| SelectCategoria (nome : string)
| SelectCentroTreinamento (nome : string)
| SelectAtleta (q : Select).

Inductive call : Type :=
| Execute (stmt : statement)
| Add (a : AtletaModel.t)
| Delete (a : AtletaModel.t)
| Commit
| Refresh (a : AtletaModel.t).

Record Session := mkSession {
  database : Database;
  new : list AtletaModel.t;
  dirty : list AtletaModel.t;
  deleted : list AtletaModel.t;
  calls : list call
}.

Definition flush (s : Session) : outcome Database :=
  match write_all insert_row (database s) (new s) with
  | Raise e => Raise e
  | Return db1 =>
      match write_all update_row db1 (dirty s) with
      | Raise e => Raise e
      | Return db2 => write_all delete_row db2 (deleted s)
      end
  end.

(** What the request cannot decide: the identifier and the clock reading that
    [uuid4()] and [datetime.utcnow()] give it, and whether the store fails at
    commit for a reason of its own (connection lost, disk full, ...). *)
Record Env := mkEnv {
  uuid4 : UUID;
  utcnow : datetime;
  commit_fault : bool
}.

(** *** The monad of handlers *)

Definition M (A : Type) : Type := Session -> outcome A * Session.

Definition ret {A} (a : A) : M A := fun s => (Return a, s).

Definition bind {A B} (m : M A) (k : A -> M B) : M B :=
  fun s =>
    match m s with
    | (Return a, s') => k a s'
    | (Raise e, s') => (Raise e, s')
    end.

Definition raise {A} (e : exn) : M A := fun s => (Raise e, s).

Definition try_except {A} (body : M A) (handler : exn -> M A) : M A :=
  fun s =>
    match body s with
    | (Return a, s') => (Return a, s')
    | (Raise e, s') => handler e s'
    end.

Notation "x <- m ;; k" := (bind m (fun x => k))
  (at level 61, m at next level, right associativity).
Notation "m ;;; k" := (bind m (fun _ => k))
  (at level 61, right associativity).

Definition record (c : call) (s : Session) : Session :=
  mkSession (database s) (new s) (dirty s) (deleted s) (calls s ++ [c]).

(** *** The session's methods *)

Definition execute_categoria (nome : string) : M (list CategoriaModel.t) :=
  fun s =>
    (Return (filter (fun c => String.eqb (CategoriaModel.nome c) nome)
                    (categorias (database s))),
     record (Execute (SelectCategoria nome)) s).

Definition execute_centro_treinamento (nome : string)
  : M (list CentroTreinamentoModel.t) :=
  fun s =>
    (Return (filter (fun c => String.eqb (CentroTreinamentoModel.nome c) nome)
                    (centros_treinamento (database s))),
     record (Execute (SelectCentroTreinamento nome)) s).

Definition execute (q : Select) : M (list AtletaModel.t) :=
  fun s => (run_select (database s) q, record (Execute (SelectAtleta q)) s).

Definition add (a : AtletaModel.t) : M unit :=
  fun s =>
    (Return tt,
     mkSession (database s) (new s ++ [a]) (dirty s) (deleted s)
               (calls s ++ [Add a])).

Definition delete_ (a : AtletaModel.t) : M unit :=
  fun s =>
    (Return tt,
     mkSession (database s) (new s) (dirty s) (deleted s ++ [a])
               (calls s ++ [Delete a])).

(** After a commit, successful or not, nothing is left pending: on success
    the working copy becomes the database, on failure the transaction is
    rolled back. *)
Definition commit (env : Env) : M unit :=
  fun s =>
    let log := calls s ++ [Commit] in
    if commit_fault env then
      (Raise DBAPIError, mkSession (database s) [] [] [] log)
    else
      match flush s with
      | Return db' => (Return tt, mkSession db' [] [] [] log)
      | Raise e => (Raise e, mkSession (database s) [] [] [] log)
      end.

Definition refresh (a : AtletaModel.t) : M AtletaModel.t :=
  fun s =>
    let s' := record (Refresh a) s in
    match AtletaModel.pk_id a with
    | None => (Raise InvalidRequestError, s')
    | Some k =>
        match find (AtletaModel.has_pk k) (atletas (database s)) with
        | Some row => (Return row, s')
        | None => (Raise InvalidRequestError, s')
        end
    end.

(** Modelled from the spec: the Session Provider
    ([workout_api/contrib/dependencies.py], not part of the sources at hand)
    hands the handler a session of its own on the database and releases it
    after the request whatever the outcome; what was not committed is lost. *)
Definition open_session (db : Database) : Session := mkSession db [] [] [] [].

Definition serve {A} (handler : M A) (db : Database) : outcome A * Session :=
  handler (open_session db).

Definition outcome_of {A} (handler : M A) (db : Database) : outcome A :=
  fst (serve handler db).

Definition database_after {A} (handler : M A) (db : Database) : Database :=
  database (snd (serve handler db)).

Definition calls_of {A} (handler : M A) (db : Database) : list call :=
  calls (snd (serve handler db)).

(** ** The handlers ([workout_api/atleta/controller.py]) *)

(** The [AtletaOut] built from the fields of [atleta_in.model_dump()] with
    [id=uuid4()] and [created_at=datetime.utcnow()]. *)
Definition new_AtletaOut (env : Env) (atleta_in : AtletaIn.t) : AtletaOut.t :=
  AtletaOut.mk (uuid4 env) (utcnow env)
    (AtletaIn.nome atleta_in) (AtletaIn.cpf atleta_in)
    (AtletaIn.peso atleta_in) (AtletaIn.altura atleta_in)
    (AtletaIn.sexo atleta_in)
    (AtletaIn.categoria atleta_in) (AtletaIn.centro_treinamento atleta_in).

(** The [AtletaModel] built from [atleta_out.model_dump] without
    ['categoria'] and ['centro_treinamento'], followed by the assignment of
    the two foreign keys. *)
Definition new_AtletaModel (atleta_out : AtletaOut.t)
           (categoria : CategoriaModel.t)
           (centro_treinamento : CentroTreinamentoModel.t) : AtletaModel.t :=
  AtletaModel.mk None (AtletaOut.id atleta_out)
    (AtletaOut.created_at atleta_out)
    (AtletaOut.nome atleta_out) (AtletaOut.cpf atleta_out)
    (AtletaOut.peso atleta_out) (AtletaOut.altura atleta_out)
    (AtletaOut.sexo atleta_out)
    (CategoriaModel.pk_id categoria)
    (CentroTreinamentoModel.pk_id centro_treinamento).

Definition categoria_not_found (categoria_nome : string) : exn :=
  HTTPException HTTP_400_BAD_REQUEST
    (fstring ["A categoria "; categoria_nome; " não foi encontrada."]%string).

Definition centro_treinamento_not_found (centro_treinamento_nome : string)
  : exn :=
  HTTPException HTTP_400_BAD_REQUEST
    (fstring ["O centro de treinamento "; centro_treinamento_nome;
              " não foi encontrado."]%string).

Definition cpf_already_registered (cpf : string) : exn :=
  HTTPException HTTP_303_SEE_OTHER
    (fstring ["Já existe um atleta cadastrado com o cpf: "; cpf]%string).

Definition insert_failed : exn :=
  HTTPException HTTP_500_INTERNAL_SERVER_ERROR
    "Ocorreu um erro ao inserir os dados no banco"%string.

Definition atleta_not_found (id : UUID) : exn :=
  HTTPException HTTP_404_NOT_FOUND
    (fstring ["Atleta não encontrado com o ID: "; str_uuid id]%string).

Definition no_atleta_matches : exn :=
  HTTPException HTTP_404_NOT_FOUND
    "Nenhum atleta encontrado com o critério fornecido."%string.

(** The body of the [try] block of [post] and its two [except] clauses. *)
Definition post_try (env : Env) (atleta_in : AtletaIn.t)
           (categoria : CategoriaModel.t)
           (centro_treinamento : CentroTreinamentoModel.t) : M AtletaOut.t :=
  let atleta_out := new_AtletaOut env atleta_in in
  let atleta_model :=
    new_AtletaModel atleta_out categoria centro_treinamento in
  add atleta_model ;;;
  commit env ;;;
  ret atleta_out.

Definition post_except (atleta_in : AtletaIn.t) (e : exn) : M AtletaOut.t :=
  match e with
  | IntegrityError => raise (cpf_already_registered (AtletaIn.cpf atleta_in))
  | _ => raise insert_failed
  end.

(** POST /  (status_code 201) *)
Definition post (env : Env) (atleta_in : AtletaIn.t) : M AtletaOut.t :=
  let categoria_nome := CategoriaIn.nome (AtletaIn.categoria atleta_in) in
  let centro_treinamento_nome :=
    CentroTreinamentoAtleta.nome (AtletaIn.centro_treinamento atleta_in) in
  rows <- execute_categoria categoria_nome ;;
  match scalars_first rows with
  | None => raise (categoria_not_found categoria_nome)
  | Some categoria =>
      rows <- execute_centro_treinamento centro_treinamento_nome ;;
      match scalars_first rows with
      | None => raise (centro_treinamento_not_found centro_treinamento_nome)
      | Some centro_treinamento =>
          try_except
            (post_try env atleta_in categoria centro_treinamento)
            (post_except atleta_in)
      end
  end.

(** The dictionary built for each athlete of a listing. *)
Module atleta_dict.
Record t := mk {
  nome : string;
  centro_treinamento : string;
  categoria : string
}.
End atleta_dict.

(** [atleta.centro_treinamento.nome] and [atleta.categoria.nome]: the
    attribute of the related row, an [AttributeError] when there is none. *)
Definition centro_treinamento_nome_of (atleta : AtletaModel.t) : M string :=
  fun s =>
    match centro_treinamento_of (database s) atleta with
    | Some c => (Return (CentroTreinamentoModel.nome c), s)
    | None => (Raise AttributeError, s)
    end.

Definition categoria_nome_of (atleta : AtletaModel.t) : M string :=
  fun s =>
    match categoria_of (database s) atleta with
    | Some c => (Return (CategoriaModel.nome c), s)
    | None => (Raise AttributeError, s)
    end.

(** The loop [for atleta in atletas: ... atletas_response.append(atleta_dict)]. *)
Fixpoint for_atletas (atletas : list AtletaModel.t)
         (atletas_response : list atleta_dict.t) : M (list atleta_dict.t) :=
  match atletas with
  | [] => ret atletas_response
  | atleta :: rest =>
      ct <- centro_treinamento_nome_of atleta ;;
      cat <- categoria_nome_of atleta ;;
      for_atletas rest
        (atletas_response ++ [atleta_dict.mk (AtletaModel.nome atleta) ct cat])
  end.

(** A query parameter declared [Query(default)]: the value sent, the
    default when the request has none. *)
Definition Query (default : Z) (sent : option Z) : Z :=
  match sent with
  | Some v => v
  | None => default
  end.

(** GET /  (status_code 200) *)
Definition query_all (limit offset : Z) : M (list atleta_dict.t) :=
  let query := select_AtletaModel in
  let query := offset_ (limit_ query limit) offset in
  rows <- execute query ;;
  let atletas := scalars_all rows in
  atletas_response <- for_atletas atletas [] ;;
  ret atletas_response.

(** The statement built by GET /search: the filters, each added only when
    its parameter is truthy, then the page. *)
Definition search_filters (nome cpf : option string) : Select :=
  let query := select_AtletaModel in
  let query :=
    match nome with
    | Some n => if truthy (Some n) then filter_ query (NomeEq n) else query
    | None => query
    end in
  let query :=
    match cpf with
    | Some c => if truthy (Some c) then filter_ query (CpfEq c) else query
    | None => query
    end in
  query.

Definition search_query (nome cpf : option string) (limit offset : Z)
  : Select :=
  let query := search_filters nome cpf in
  offset_ (limit_ query limit) offset.

(** GET /search  (status_code 200) *)
Definition query_by_name_or_cpf (nome cpf : option string) (limit offset : Z)
  : M (list atleta_dict.t) :=
  rows <- execute (search_query nome cpf limit offset) ;;
  let atletas := scalars_all rows in
  atletas_response <- for_atletas atletas [] ;;
  match atletas_response with
  | [] => raise no_atleta_matches
  | _ => ret atletas_response
  end.

(** GET /{id}  (status_code 200) *)
Definition query_by_id (id : UUID) : M AtletaModel.t :=
  rows <- execute (filter_ select_AtletaModel (IdEq id)) ;;
  match scalars_first rows with
  | None => raise (atleta_not_found id)
  | Some atleta => ret atleta
  end.

(** One item of [atleta_up.model_dump(exclude_unset=True)]: an attribute
    name with its value. *)
Inductive item : Type :=
| item_nome (value : string)
| item_cpf (value : string)
| item_peso (value : float)
| item_altura (value : float)
| item_sexo (value : string).

Definition items_of {A} (mk_item : A -> item) (field : option A) : list item :=
  match field with
  | Some v => [mk_item v]
  | None => []
  end.

Definition model_dump_exclude_unset (atleta_up : AtletaUpdate.t) : list item :=
  items_of item_nome (AtletaUpdate.nome atleta_up)
  ++ items_of item_cpf (AtletaUpdate.cpf atleta_up)
  ++ items_of item_peso (AtletaUpdate.peso atleta_up)
  ++ items_of item_altura (AtletaUpdate.altura atleta_up)
  ++ items_of item_sexo (AtletaUpdate.sexo atleta_up).

(** The object after [setattr(atleta, key, value)]. *)
Definition assign (atleta : AtletaModel.t) (kv : item) : AtletaModel.t :=
  let '(AtletaModel.mk pk id created nome cpf peso altura sexo cat ct) :=
    atleta in
  match kv with
  | item_nome v => AtletaModel.mk pk id created v cpf peso altura sexo cat ct
  | item_cpf v => AtletaModel.mk pk id created nome v peso altura sexo cat ct
  | item_peso v => AtletaModel.mk pk id created nome cpf v altura sexo cat ct
  | item_altura v => AtletaModel.mk pk id created nome cpf peso v sexo cat ct
  | item_sexo v => AtletaModel.mk pk id created nome cpf peso altura v cat ct
  end.

(** [setattr] on an object of the session: the attribute changes and the
    session holds the object for the next flush. *)
Definition setattr (atleta : AtletaModel.t) (kv : item) : M AtletaModel.t :=
  fun s =>
    let atleta' := assign atleta kv in
    let others :=
      match AtletaModel.pk_id atleta with
      | Some k => filter (fun r => negb (AtletaModel.has_pk k r)) (dirty s)
      | None => dirty s
      end in
    (Return atleta',
     mkSession (database s) (new s) (atleta' :: others) (deleted s) (calls s)).

(** The loop [for key, value in atleta_update.items(): setattr(...)]. *)
Fixpoint for_items (atleta : AtletaModel.t) (atleta_update : list item)
  : M AtletaModel.t :=
  match atleta_update with
  | [] => ret atleta
  | kv :: rest => atleta' <- setattr atleta kv ;; for_items atleta' rest
  end.

(** PATCH /{id}  (status_code 200) *)
Definition patch (env : Env) (id : UUID) (atleta_up : AtletaUpdate.t)
  : M AtletaModel.t :=
  rows <- execute (filter_ select_AtletaModel (IdEq id)) ;;
  match scalars_first rows with
  | None => raise (atleta_not_found id)
  | Some atleta =>
      let atleta_update := model_dump_exclude_unset atleta_up in
      atleta <- for_items atleta atleta_update ;;
      commit env ;;;
      atleta <- refresh atleta ;;
      ret atleta
  end.

(** DELETE /{id}  (status_code 204) *)
Definition delete (env : Env) (id : UUID) : M unit :=
  rows <- execute (filter_ select_AtletaModel (IdEq id)) ;;
  match scalars_first rows with
  | None => raise (atleta_not_found id)
  | Some atleta =>
      delete_ atleta ;;;
      commit env
  end.

(** [response_model=AtletaOut]: the answer built from the attributes of the
    returned row and of its two related rows. *)
Definition response_AtletaOut (db : Database) (atleta : AtletaModel.t)
  : outcome AtletaOut.t :=
  match categoria_of db atleta, centro_treinamento_of db atleta with
  | Some c, Some ct =>
      Return (AtletaOut.mk (AtletaModel.id atleta)
                (AtletaModel.created_at atleta)
                (AtletaModel.nome atleta) (AtletaModel.cpf atleta)
                (AtletaModel.peso atleta) (AtletaModel.altura atleta)
                (AtletaModel.sexo atleta)
                (CategoriaIn.mk (CategoriaModel.nome c))
                (CentroTreinamentoAtleta.mk (CentroTreinamentoModel.nome ct)))
  | _, _ => Raise AttributeError
  end.

(** ** Predicates on the store used to state the properties *)

Definition has_categoria (db : Database) (nome : string) : bool :=
  existsb (fun c => String.eqb (CategoriaModel.nome c) nome) (categorias db).

Definition has_centro_treinamento (db : Database) (nome : string) : bool :=
  existsb (fun c => String.eqb (CentroTreinamentoModel.nome c) nome)
          (centros_treinamento db).

Definition cpf_registered (db : Database) (cpf : string) : bool :=
  existsb (fun r => String.eqb (AtletaModel.cpf r) cpf) (atletas db).

Definition id_registered (db : Database) (id : UUID) : bool :=
  existsb (fun r => N.eqb (AtletaModel.id r) id) (atletas db).

(** Every athlete row has its category and its training centre. *)
Definition references_valid (db : Database) : bool :=
  forallb (references_exist db) (atletas db).

(** Every stored row has a primary key, and no two rows share one. *)
Fixpoint distinct_pks (rows : list AtletaModel.t) : bool :=
  match rows with
  | [] => true
  | a :: rest =>
      match AtletaModel.pk_id a with
      | Some k => negb (existsb (AtletaModel.has_pk k) rest)
      | None => false
      end && distinct_pks rest
  end.

(** Every primary key in use was drawn from the table's sequence. *)
Definition pks_below_seq (db : Database) : bool :=
  forallb (fun a => match AtletaModel.pk_id a with
                    | Some k => k <? atletas_pk_seq db
                    | None => false
                    end) (atletas db).

(** No two rows share an [id]. *)
Fixpoint distinct_ids (rows : list AtletaModel.t) : bool :=
  match rows with
  | [] => true
  | a :: rest =>
      negb (existsb (fun r => N.eqb (AtletaModel.id r) (AtletaModel.id a)) rest)
      && distinct_ids rest
  end.

(** No two rows share a [cpf]. *)
Fixpoint distinct_cpfs (rows : list AtletaModel.t) : bool :=
  match rows with
  | [] => true
  | a :: rest =>
      negb (existsb (fun r => String.eqb (AtletaModel.cpf r)
                                         (AtletaModel.cpf a)) rest)
      && distinct_cpfs rest
  end.

(** The shape shared by [distinct_ids] and [distinct_cpfs]: no two rows
    have the same [key], compared by [eqb]. *)
Fixpoint distinct {A} (key : AtletaModel.t -> A) (eqb : A -> A -> bool)
         (rows : list AtletaModel.t) : bool :=
  match rows with
  | [] => true
  | a :: rest =>
      negb (existsb (fun r => eqb (key r) (key a)) rest)
      && distinct key eqb rest
  end.

(** A row's value passes a search parameter when the parameter is absent or
    empty, or equal to the value. *)
Definition passes (param : option string) (value : string) : bool :=
  if truthy param then
    match param with
    | Some p => String.eqb value p
    | None => true
    end
  else true.

(** The invariants of the spec's data model on the athlete table. *)
Definition well_formed (db : Database) : bool :=
  distinct_pks (atletas db) && pks_below_seq db
  && distinct_ids (atletas db) && distinct_cpfs (atletas db)
  && references_valid db.

(** The sparse patch in the spec's words: a field present in the body takes
    the body's value, a field left out keeps the stored one, and the
    identifier, the creation time and the two references are never touched. *)
Definition sparse_patch (atleta_up : AtletaUpdate.t) (stored : AtletaModel.t)
  : AtletaModel.t :=
  let keep {A} (sent : option A) (old : A) : A :=
    match sent with
    | Some v => v
    | None => old
    end in
  AtletaModel.mk
    (AtletaModel.pk_id stored) (AtletaModel.id stored)
    (AtletaModel.created_at stored)
    (keep (AtletaUpdate.nome atleta_up) (AtletaModel.nome stored))
    (keep (AtletaUpdate.cpf atleta_up) (AtletaModel.cpf stored))
    (keep (AtletaUpdate.peso atleta_up) (AtletaModel.peso stored))
    (keep (AtletaUpdate.altura atleta_up) (AtletaModel.altura stored))
    (keep (AtletaUpdate.sexo atleta_up) (AtletaModel.sexo stored))
    (AtletaModel.categoria_id stored)
    (AtletaModel.centro_treinamento_id stored).

(** The loop of the two listings as a function of the rows: the dictionary
    of each row, when every row has its two related rows. *)
Definition atleta_dict_of (db : Database) (a : AtletaModel.t)
  : option atleta_dict.t :=
  match centro_treinamento_of db a, categoria_of db a with
  | Some ct, Some cat =>
      Some (atleta_dict.mk (AtletaModel.nome a)
                           (CentroTreinamentoModel.nome ct)
                           (CategoriaModel.nome cat))
  | _, _ => None
  end.

Fixpoint atleta_dicts_of (db : Database) (rows : list AtletaModel.t)
  : option (list atleta_dict.t) :=
  match rows with
  | [] => Some []
  | a :: rest =>
      match atleta_dict_of db a, atleta_dicts_of db rest with
      | Some d, Some ds => Some (d :: ds)
      | _, _ => None
      end
  end.

(** [d] is the dictionary of the row [a]: its name, the name of its training
    centre and the name of its category. *)
Definition is_summary_of (db : Database) (a : AtletaModel.t)
           (d : atleta_dict.t) : Prop :=
  atleta_dict.nome d = AtletaModel.nome a
  /\ option_map CentroTreinamentoModel.nome (centro_treinamento_of db a)
     = Some (atleta_dict.centro_treinamento d)
  /\ option_map CategoriaModel.nome (categoria_of db a)
     = Some (atleta_dict.categoria d).

(** ** A small store, used to run the handlers on concrete requests *)

Module Sample.
Local Open Scope string_scope.

Definition scale := CategoriaModel.mk 1 "Scale".
Definition rx := CategoriaModel.mk 2 "RX".
Definition box1 := CentroTreinamentoModel.mk 7 "Box1".

Definition ana : AtletaModel.t :=
  AtletaModel.mk (Some 1) 5%N 100 "Ana" "111" 60.5%float 1.75%float "F" 2 7.
Definition bia : AtletaModel.t :=
  AtletaModel.mk (Some 2) 6%N 101 "Bia" "222" 70%float 1.5%float "F" 1 7.

Definition db : Database := mkDatabase Strict [scale; rx] [box1] [ana; bia] 3.
Definition db_lenient : Database :=
  mkDatabase Lenient [scale; rx] [box1] [ana; bia] 3.

Definition env : Env := mkEnv 255%N 1000 false.
Definition env_fault : Env := mkEnv 255%N 1000 true.

Definition atleta_in (cpf categoria centro_treinamento : string)
  : AtletaIn.t :=
  AtletaIn.mk "Caio" cpf 80%float 1.5%float "M"
              (CategoriaIn.mk categoria)
              (CentroTreinamentoAtleta.mk centro_treinamento).

Definition only_peso (v : float) : AtletaUpdate.t :=
  AtletaUpdate.mk None None (Some v) None None.

Definition only_cpf (v : string) : AtletaUpdate.t :=
  AtletaUpdate.mk None (Some v) None None None.
End Sample.

(** ** Lists: first match, filters *)

Section ListFacts.
Context {A : Type}.
Variable p : A -> bool.

Lemma first_filter_none (l : list A) :
  existsb p l = false -> scalars_first (filter p l) = None.
Proof.
  induction l as [|x l IH]; simpl; [reflexivity|].
  destruct (p x); simpl; [discriminate|exact IH].
Qed.

Lemma first_filter_some (l : list A) :
  existsb p l = true ->
  exists x, scalars_first (filter p l) = Some x /\ In x l /\ p x = true.
Proof.
  induction l as [|x l IH]; simpl; [discriminate|].
  destruct (p x) eqn:Hx; simpl.
  - intros _. exists x. auto.
  - intros H. destruct (IH H) as (y & Hy & Hin & Hp). exists y. auto.
Qed.

Lemma first_filter_in (l : list A) (x : A) :
  scalars_first (filter p l) = Some x -> In x l /\ p x = true.
Proof.
  intros H.
  assert (Hin : In x (filter p l)).
  { destruct (filter p l); simpl in H; [discriminate|].
    injection H as ->. now left. }
  now apply filter_In in Hin.
Qed.

Lemma first_filter_existsb (l : list A) (x : A) :
  scalars_first (filter p l) = Some x -> existsb p l = true.
Proof.
  intros H. apply first_filter_in in H. apply existsb_exists.
  exists x. exact H.
Qed.

Lemma find_of_in (l : list A) (x : A) :
  In x l -> p x = true -> exists y, find p l = Some y /\ p y = true.
Proof.
  induction l as [|z l IH]; simpl; [tauto|].
  intros [->|Hin] Hp.
  - rewrite Hp. eauto.
  - destruct (p z) eqn:Hz; eauto.
Qed.

Lemma filter_none (l : list A) :
  existsb p l = false -> filter p l = [].
Proof.
  induction l as [|x l IH]; simpl; [reflexivity|].
  destruct (p x); simpl; [discriminate|exact IH].
Qed.
End ListFacts.

Lemma firstn_length_le {A} (n : nat) (l : list A) :
  (length (firstn n l) <= n)%nat.
Proof. rewrite length_firstn. apply Nat.le_min_l. Qed.

(** ** The create handler *)

Lemma cpf_held_by_new (cpf : string) (a : AtletaModel.t)
      (rows : list AtletaModel.t) :
  AtletaModel.pk_id a = None ->
  cpf_held_by_other cpf a rows
  = existsb (fun r => String.eqb (AtletaModel.cpf r) cpf) rows.
Proof.
  intros Hpk. unfold cpf_held_by_other. rewrite Hpk.
  induction rows as [|r rows IH]; cbn; [reflexivity|].
  cbn in IH. rewrite IH, andb_true_r. reflexivity.
Qed.

Section Post.
Variable env : Env.
Variable atleta_in : AtletaIn.t.
Variable db : Database.

Let categoria_nome := CategoriaIn.nome (AtletaIn.categoria atleta_in).
Let centro_treinamento_nome :=
  CentroTreinamentoAtleta.nome (AtletaIn.centro_treinamento atleta_in).

Lemma post_category_missing :
  has_categoria db categoria_nome = false ->
  serve (post env atleta_in) db
  = (Raise (categoria_not_found categoria_nome),
     mkSession db [] [] [] [Execute (SelectCategoria categoria_nome)]).
Proof.
  intros H. apply first_filter_none in H.
  unfold serve, post, bind, execute_categoria.
  cbn [open_session database record new dirty deleted calls app].
  fold categoria_nome. rewrite H. reflexivity.
Qed.

Lemma post_centre_missing :
  has_categoria db categoria_nome = true ->
  has_centro_treinamento db centro_treinamento_nome = false ->
  serve (post env atleta_in) db
  = (Raise (centro_treinamento_not_found centro_treinamento_nome),
     mkSession db [] [] []
       [Execute (SelectCategoria categoria_nome);
        Execute (SelectCentroTreinamento centro_treinamento_nome)]).
Proof.
  intros Hc Hct. apply first_filter_some in Hc. destruct Hc as (c & Hc & _).
  apply first_filter_none in Hct.
  unfold serve, post, bind, execute_categoria, execute_centro_treinamento.
  cbn [open_session database record new dirty deleted calls app].
  fold categoria_nome centro_treinamento_nome. rewrite Hc.
  cbn [open_session database record new dirty deleted calls app].
  rewrite Hct. reflexivity.
Qed.

Lemma post_after_lookups categoria centro_treinamento :
  scalars_first
    (filter (fun c => String.eqb (CategoriaModel.nome c) categoria_nome)
            (categorias db)) = Some categoria ->
  scalars_first
    (filter (fun c => String.eqb (CentroTreinamentoModel.nome c)
                                 centro_treinamento_nome)
            (centros_treinamento db)) = Some centro_treinamento ->
  serve (post env atleta_in) db =
  try_except (post_try env atleta_in categoria centro_treinamento)
    (post_except atleta_in)
    (mkSession db [] [] []
       [Execute (SelectCategoria categoria_nome);
        Execute (SelectCentroTreinamento centro_treinamento_nome)]).
Proof.
  intros Hc Hct.
  unfold serve, post, bind, execute_categoria, execute_centro_treinamento.
  cbn [open_session database record new dirty deleted calls app].
  fold categoria_nome centro_treinamento_nome.
  rewrite Hc.
  cbn [open_session database record new dirty deleted calls app].
  rewrite Hct. reflexivity.
Qed.

(** What the [try] block does on a session with nothing pending. *)
Lemma post_try_run categoria centro_treinamento log :
  let atleta_out := new_AtletaOut env atleta_in in
  let atleta_model :=
    new_AtletaModel atleta_out categoria centro_treinamento in
  let log' := (log ++ [Add atleta_model]) ++ [Commit] in
  post_try env atleta_in categoria centro_treinamento
           (mkSession db [] [] [] log)
  = if commit_fault env then
      (Raise DBAPIError, mkSession db [] [] [] log')
    else
      match insert_row db atleta_model with
      | Return db' => (Return atleta_out, mkSession db' [] [] [] log')
      | Raise e => (Raise e, mkSession db [] [] [] log')
      end.
Proof.
  intros atleta_out atleta_model log'.
  unfold post_try, bind, add, commit, ret, flush.
  cbn [database new dirty deleted calls app write_all].
  fold atleta_out atleta_model log'.
  destruct (commit_fault env); [reflexivity|].
  destruct (insert_row db atleta_model); reflexivity.
Qed.

(** The store accepts the new row when its [cpf] is free: the two
    references were just read from the store. *)
Lemma insert_looked_up categoria centro_treinamento :
  In categoria (categorias db) ->
  In centro_treinamento (centros_treinamento db) ->
  insert_row db (new_AtletaModel (new_AtletaOut env atleta_in)
                                 categoria centro_treinamento)
  = if cpf_registered db (AtletaIn.cpf atleta_in) then Raise IntegrityError
    else
      Return (set_atletas db
                (atletas db ++
                 [AtletaModel.with_pk (atletas_pk_seq db)
                    (new_AtletaModel (new_AtletaOut env atleta_in)
                                     categoria centro_treinamento)])
                (atletas_pk_seq db + 1)).
Proof.
  intros Hc Hct. unfold insert_row.
  rewrite cpf_held_by_new by reflexivity.
  change (existsb _ (atletas db))
    with (cpf_registered db (AtletaIn.cpf atleta_in)).
  destruct (cpf_registered db (AtletaIn.cpf atleta_in)); [reflexivity|].
  unfold references_exist, categoria_of, centro_treinamento_of.
  cbn [new_AtletaModel AtletaModel.categoria_id
       AtletaModel.centro_treinamento_id].
  destruct (find_of_in
              (fun c => CategoriaModel.pk_id c
                        =? CategoriaModel.pk_id categoria)
              _ _ Hc (Z.eqb_refl _)) as (c' & -> & _).
  destruct (find_of_in
              (fun c => CentroTreinamentoModel.pk_id c
                        =? CentroTreinamentoModel.pk_id centro_treinamento)
              _ _ Hct (Z.eqb_refl _)) as (ct' & -> & _).
  reflexivity.
Qed.
End Post.

(** ** Statements and pages *)

Lemma rows_where_nil (rows : list AtletaModel.t) : rows_where [] rows = rows.
Proof.
  unfold rows_where. induction rows as [|a rows IH]; cbn; [reflexivity|].
  cbn in IH. now rewrite IH.
Qed.

Lemma run_select_page (db : Database) (q : Select) (limit offset : Z) :
  0 <= limit -> 0 <= offset ->
  run_select db (offset_ (limit_ q limit) offset)
  = Return (firstn (Z.to_nat limit)
              (skipn (Z.to_nat offset)
                 (rows_where (whereclause q) (atletas db)))).
Proof.
  intros Hl Ho. unfold run_select, apply_offset, apply_limit.
  cbn [offset_ limit_ offset_clause limit_clause whereclause].
  apply Z.ltb_ge in Hl, Ho. rewrite Hl, Ho. reflexivity.
Qed.

Lemma run_select_unpaged (db : Database) (cs : list criterion) :
  run_select db (mkSelect cs None None) = Return (rows_where cs (atletas db)).
Proof. reflexivity. Qed.

Lemma In_firstn {A} (n : nat) (l : list A) (x : A) :
  In x (firstn n l) -> In x l.
Proof.
  revert l. induction n as [|n IH]; intros [|y l]; simpl; try tauto.
  intros [->|H]; auto.
Qed.

Lemma In_skipn {A} (n : nat) (l : list A) (x : A) :
  In x (skipn n l) -> In x l.
Proof.
  revert l. induction n as [|n IH]; intros [|y l]; simpl; try tauto.
  intros H. right. now apply IH.
Qed.

(** Whatever the page and the store's rule, a select returns only rows of
    the table that satisfy every criterion. *)
Lemma run_select_sound (db : Database) (q : Select) rows a :
  run_select db q = Return rows -> In a rows ->
  In a (atletas db) /\ forallb (satisfies a) (whereclause q) = true.
Proof.
  unfold run_select, apply_offset, apply_limit, rows_where.
  intros H Hin.
  assert (Hsub : In a (filter (fun a => forallb (satisfies a) (whereclause q))
                              (atletas db))).
  { destruct (offset_clause q) as [o|], (limit_clause q) as [l|],
      (negative_bounds db);
      repeat match type of H with
             | context [if ?c then _ else _] => destruct c
             end;
      try discriminate; injection H as <-;
      repeat first [apply In_firstn in Hin | apply In_skipn in Hin];
      exact Hin. }
  now apply filter_In in Hsub.
Qed.

(** ** The loop of the listings *)

Lemma for_atletas_run (rows : list AtletaModel.t) (acc : list atleta_dict.t)
      (s : Session) :
  for_atletas rows acc s
  = match atleta_dicts_of (database s) rows with
    | Some dicts => (Return (acc ++ dicts), s)
    | None => (Raise AttributeError, s)
    end.
Proof.
  revert acc. induction rows as [|a rows IH]; intros acc.
  - simpl. unfold ret. now rewrite app_nil_r.
  - cbn [for_atletas atleta_dicts_of].
    unfold bind, centro_treinamento_nome_of, categoria_nome_of, atleta_dict_of.
    destruct (centro_treinamento_of (database s) a) as [ct|]; [|reflexivity].
    destruct (categoria_of (database s) a) as [cat|]; [|reflexivity].
    rewrite IH.
    destruct (atleta_dicts_of (database s) rows) as [ds|]; [|reflexivity].
    now rewrite <- app_assoc.
Qed.

Lemma atleta_dicts_of_valid (db : Database) (rows : list AtletaModel.t) :
  forallb (references_exist db) rows = true ->
  exists dicts, atleta_dicts_of db rows = Some dicts.
Proof.
  induction rows as [|a rows IH]; simpl; [eauto|].
  intros H. apply andb_prop in H. destruct H as [Ha Hrows].
  destruct (IH Hrows) as (ds & ->).
  unfold atleta_dict_of. unfold references_exist in Ha.
  destruct (categoria_of db a), (centro_treinamento_of db a);
    try discriminate; eauto.
Qed.

Lemma atleta_dicts_of_summary (db : Database) (rows : list AtletaModel.t)
      dicts :
  atleta_dicts_of db rows = Some dicts ->
  Forall2 (is_summary_of db) rows dicts.
Proof.
  revert dicts. induction rows as [|a rows IH]; simpl; intros dicts H.
  - injection H as <-. constructor.
  - unfold atleta_dict_of in H.
    destruct (centro_treinamento_of db a) as [ct|] eqn:Hct; [|discriminate].
    destruct (categoria_of db a) as [cat|] eqn:Hcat; [|discriminate].
    destruct (atleta_dicts_of db rows) as [ds|]; [|discriminate].
    injection H as <-. constructor; [|now apply IH].
    unfold is_summary_of. rewrite Hct, Hcat. simpl. auto.
Qed.

Lemma forallb_page {A} (p : A -> bool) (n m : nat) (l : list A) :
  forallb p l = true -> forallb p (firstn n (skipn m l)) = true.
Proof.
  intros H. apply forallb_forall. intros x Hx.
  apply In_firstn, In_skipn in Hx.
  exact (proj1 (forallb_forall p l) H x Hx).
Qed.

(** The two listings, once the store has answered the select. *)
Lemma query_all_run (db : Database) (limit offset : Z) :
  serve (query_all limit offset) db
  = let q := offset_ (limit_ select_AtletaModel limit) offset in
    let s := mkSession db [] [] [] [Execute (SelectAtleta q)] in
    match run_select db q with
    | Raise e => (Raise e, s)
    | Return rows =>
        match atleta_dicts_of db rows with
        | Some dicts => (Return dicts, s)
        | None => (Raise AttributeError, s)
        end
    end.
Proof.
  unfold serve, query_all, bind, execute, scalars_all.
  cbn [open_session database record new dirty deleted calls app].
  cbv zeta.
  destruct (run_select db _) as [rows|e]; [|reflexivity].
  rewrite for_atletas_run. unfold record, open_session.
  cbn [database new dirty deleted calls app].
  destruct (atleta_dicts_of db rows); reflexivity.
Qed.

Lemma query_by_name_or_cpf_run (db : Database) (nome cpf : option string)
      (limit offset : Z) :
  serve (query_by_name_or_cpf nome cpf limit offset) db
  = let q := search_query nome cpf limit offset in
    let s := mkSession db [] [] [] [Execute (SelectAtleta q)] in
    match run_select db q with
    | Raise e => (Raise e, s)
    | Return rows =>
        match atleta_dicts_of db rows with
        | Some [] => (Raise no_atleta_matches, s)
        | Some dicts => (Return dicts, s)
        | None => (Raise AttributeError, s)
        end
    end.
Proof.
  unfold serve, query_by_name_or_cpf, bind, execute, scalars_all.
  cbn [open_session database record new dirty deleted calls app].
  cbv zeta.
  destruct (run_select db _) as [rows|e]; [|reflexivity].
  rewrite for_atletas_run. unfold record, open_session.
  cbn [database new dirty deleted calls app].
  destruct (atleta_dicts_of db rows) as [[|d ds]|]; reflexivity.
Qed.

(** C1: [post] looks the category up first and, when no category has the
    requested name, raises the 400 error that names the category, having made
    no other call on the session (nothing added, nothing committed, the
    database as it was), whatever the training centre; when the category
    exists and no training centre has the requested name, it raises the 400
    error that names the centre after the two look-ups only. *)
Theorem post_reference_not_found
        (env : Env) (atleta_in : AtletaIn.t) (db : Database) :
  let categoria_nome := CategoriaIn.nome (AtletaIn.categoria atleta_in) in
  let centro_treinamento_nome :=
    CentroTreinamentoAtleta.nome (AtletaIn.centro_treinamento atleta_in) in
  (has_categoria db categoria_nome = false ->
   serve (post env atleta_in) db
   = (Raise (HTTPException 400
               (fstring ["A categoria "; categoria_nome;
                         " não foi encontrada."]%string)),
      mkSession db [] [] [] [Execute (SelectCategoria categoria_nome)]))
  /\
  (has_categoria db categoria_nome = true ->
   has_centro_treinamento db centro_treinamento_nome = false ->
   serve (post env atleta_in) db
   = (Raise (HTTPException 400
               (fstring ["O centro de treinamento "; centro_treinamento_nome;
                         " não foi encontrado."]%string)),
      mkSession db [] [] []
        [Execute (SelectCategoria categoria_nome);
         Execute (SelectCentroTreinamento centro_treinamento_nome)])).
Proof.
  intros categoria_nome centro_treinamento_nome. split.
  - intros H. exact (post_category_missing env atleta_in db H).
  - intros Hc Hct. exact (post_centre_missing env atleta_in db Hc Hct).
Qed.

Lemma post_reference_not_found_witness :
  serve (post Sample.env (Sample.atleta_in "333" "Elite" "Box9")) Sample.db
  = (Raise (HTTPException 400 "A categoria Elite não foi encontrada."),
     mkSession Sample.db [] [] [] [Execute (SelectCategoria "Elite")])
  /\
  serve (post Sample.env (Sample.atleta_in "333" "RX" "Box9")) Sample.db
  = (Raise (HTTPException 400
              "O centro de treinamento Box9 não foi encontrado."),
     mkSession Sample.db [] [] []
       [Execute (SelectCategoria "RX");
        Execute (SelectCentroTreinamento "Box9")]).
Proof.
  split.
  - apply (proj1 (post_reference_not_found
                    Sample.env (Sample.atleta_in "333" "Elite" "Box9")
                    Sample.db)).
    reflexivity.
  - apply (proj2 (post_reference_not_found
                    Sample.env (Sample.atleta_in "333" "RX" "Box9")
                    Sample.db)); reflexivity.
Defined.

Section PostPersistence.
Variable env : Env.
Variable atleta_in : AtletaIn.t.
Variable db : Database.

Let categoria_nome := CategoriaIn.nome (AtletaIn.categoria atleta_in).
Let centro_treinamento_nome :=
  CentroTreinamentoAtleta.nome (AtletaIn.centro_treinamento atleta_in).

Hypothesis category_found : has_categoria db categoria_nome = true.
Hypothesis centre_found :
  has_centro_treinamento db centro_treinamento_nome = true.

(** With both references found, [post] is its [try] block on the first
    category and the first centre of the requested names. *)
Lemma post_references_found :
  exists categoria centro_treinamento,
    scalars_first
      (filter (fun c => String.eqb (CategoriaModel.nome c) categoria_nome)
              (categorias db)) = Some categoria
    /\ scalars_first
         (filter (fun c => String.eqb (CentroTreinamentoModel.nome c)
                                      centro_treinamento_nome)
                 (centros_treinamento db)) = Some centro_treinamento
    /\ In categoria (categorias db)
    /\ In centro_treinamento (centros_treinamento db)
    /\ serve (post env atleta_in) db
       = try_except (post_try env atleta_in categoria centro_treinamento)
           (post_except atleta_in)
           (mkSession db [] [] []
              [Execute (SelectCategoria categoria_nome);
               Execute (SelectCentroTreinamento centro_treinamento_nome)]).
Proof.
  destruct (first_filter_some _ _ category_found) as (c & Hc & Hinc & _).
  destruct (first_filter_some _ _ centre_found) as (ct & Hct & Hinct & _).
  exists c, ct. repeat split; try assumption.
  apply post_after_lookups; assumption.
Qed.

(** C2: when both references are found and the request's [cpf] is already
    that of a stored athlete, the commit raises [IntegrityError] and [post]
    turns it into the 303 error whose detail names the [cpf]; this is not
    the 500 error of the other failures, and the database is as it was. *)
Theorem post_duplicate_cpf :
  commit_fault env = false ->
  cpf_registered db (AtletaIn.cpf atleta_in) = true ->
  (exists categoria centro_treinamento log,
      fst (post_try env atleta_in categoria centro_treinamento
                    (mkSession db [] [] [] log))
      = Raise IntegrityError
      /\ exists atleta_model,
          calls_of (post env atleta_in) db
          = (log ++ [Add atleta_model]) ++ [Commit])
  /\ outcome_of (post env atleta_in) db
     = Raise (HTTPException 303
                (fstring ["Já existe um atleta cadastrado com o cpf: ";
                          AtletaIn.cpf atleta_in]%string))
  /\ response_status HTTP_201_CREATED (outcome_of (post env atleta_in) db)
     = 303
  /\ outcome_of (post env atleta_in) db
     <> Raise (HTTPException 500
                 "Ocorreu um erro ao inserir os dados no banco")
  /\ database_after (post env atleta_in) db = db.
Proof.
  intros Hfault Hcpf.
  destruct post_references_found as (c & ct & _ & _ & Hinc & Hinct & Hrun).
  pose proof (post_try_run env atleta_in db c ct
                [Execute (SelectCategoria categoria_nome);
                 Execute (SelectCentroTreinamento centro_treinamento_nome)])
    as Htry.
  cbv zeta in Htry.
  rewrite Hfault, (insert_looked_up env atleta_in db c ct Hinc Hinct), Hcpf
    in Htry.
  unfold outcome_of, database_after, calls_of.
  rewrite Hrun. unfold try_except. rewrite Htry.
  cbn [post_except raise fst snd database calls response_status
       cpf_already_registered].
  split; [|repeat split; try reflexivity; discriminate].
  exists c, ct,
    [Execute (SelectCategoria categoria_nome);
     Execute (SelectCentroTreinamento centro_treinamento_nome)].
  rewrite Htry. split; [reflexivity|]. eexists. reflexivity.
Qed.

(** C5: when both references are found and the store fails at commit for
    a reason of its own, [post] raises the 500 error with its fixed detail,
    the database is as it was and the session holds nothing pending; any
    exception of the [try] block other than [IntegrityError] gets that
    answer. *)
Theorem post_other_failure :
  commit_fault env = true ->
  (exists atleta_model,
      serve (post env atleta_in) db
      = (Raise (HTTPException 500
                  "Ocorreu um erro ao inserir os dados no banco"),
         mkSession db [] [] []
           [Execute (SelectCategoria categoria_nome);
            Execute (SelectCentroTreinamento centro_treinamento_nome);
            Add atleta_model; Commit]))
  /\ database_after (post env atleta_in) db = db
  /\ response_status HTTP_201_CREATED (outcome_of (post env atleta_in) db)
     = 500
  /\ forall e s, e <> IntegrityError ->
       post_except atleta_in e s
       = (Raise (HTTPException 500
                   "Ocorreu um erro ao inserir os dados no banco"), s).
Proof.
  intros Hfault.
  destruct post_references_found as (c & ct & _ & _ & _ & _ & Hrun).
  pose proof (post_try_run env atleta_in db c ct
                [Execute (SelectCategoria categoria_nome);
                 Execute (SelectCentroTreinamento centro_treinamento_nome)])
    as Htry.
  cbv zeta in Htry. rewrite Hfault in Htry.
  unfold outcome_of, database_after.
  rewrite Hrun. unfold try_except. rewrite Htry.
  cbn [post_except raise fst snd database response_status app].
  split; [eexists; reflexivity|].
  repeat split.
  intros e s He. destruct e; try reflexivity. now elim He.
Qed.

(** C6: when both references are found, the store does not fail and the
    [cpf] is free, [post] returns (status 201) the athlete of the request
    with the identifier and the time generated for it, and the database is
    the former one with one more row: that athlete, under the next primary
    key, with the keys of the category and of the centre that were looked
    up. *)
Theorem post_created :
  commit_fault env = false ->
  cpf_registered db (AtletaIn.cpf atleta_in) = false ->
  exists categoria centro_treinamento,
    scalars_first
      (filter (fun c => String.eqb (CategoriaModel.nome c) categoria_nome)
              (categorias db)) = Some categoria
    /\ scalars_first
         (filter (fun c => String.eqb (CentroTreinamentoModel.nome c)
                                      centro_treinamento_nome)
                 (centros_treinamento db)) = Some centro_treinamento
    /\ outcome_of (post env atleta_in) db
       = Return (AtletaOut.mk (uuid4 env) (utcnow env)
                   (AtletaIn.nome atleta_in) (AtletaIn.cpf atleta_in)
                   (AtletaIn.peso atleta_in) (AtletaIn.altura atleta_in)
                   (AtletaIn.sexo atleta_in)
                   (AtletaIn.categoria atleta_in)
                   (AtletaIn.centro_treinamento atleta_in))
    /\ response_status HTTP_201_CREATED (outcome_of (post env atleta_in) db)
       = 201
    /\ database_after (post env atleta_in) db
       = mkDatabase (negative_bounds db) (categorias db)
           (centros_treinamento db)
           (atletas db ++
            [AtletaModel.mk (Some (atletas_pk_seq db))
               (uuid4 env) (utcnow env)
               (AtletaIn.nome atleta_in) (AtletaIn.cpf atleta_in)
               (AtletaIn.peso atleta_in) (AtletaIn.altura atleta_in)
               (AtletaIn.sexo atleta_in)
               (CategoriaModel.pk_id categoria)
               (CentroTreinamentoModel.pk_id centro_treinamento)])
           (atletas_pk_seq db + 1).
Proof.
  intros Hfault Hcpf.
  destruct post_references_found as (c & ct & Hc & Hct & Hinc & Hinct & Hrun).
  exists c, ct. split; [exact Hc|]. split; [exact Hct|].
  pose proof (post_try_run env atleta_in db c ct
                [Execute (SelectCategoria categoria_nome);
                 Execute (SelectCentroTreinamento centro_treinamento_nome)])
    as Htry.
  cbv zeta in Htry.
  rewrite Hfault, (insert_looked_up env atleta_in db c ct Hinc Hinct), Hcpf
    in Htry.
  unfold outcome_of, database_after.
  rewrite Hrun. unfold try_except. rewrite Htry.
  repeat split.
Qed.
End PostPersistence.

Lemma post_duplicate_cpf_witness :
  outcome_of (post Sample.env (Sample.atleta_in "111" "RX" "Box1")) Sample.db
  = Raise (HTTPException 303 "Já existe um atleta cadastrado com o cpf: 111")
  /\ database_after (post Sample.env (Sample.atleta_in "111" "RX" "Box1"))
                    Sample.db = Sample.db.
Proof.
  pose proof (post_duplicate_cpf
                Sample.env (Sample.atleta_in "111" "RX" "Box1") Sample.db
                eq_refl eq_refl eq_refl eq_refl) as (_ & H & _ & _ & Hdb).
  split; [exact H | exact Hdb].
Defined.

Lemma post_other_failure_witness :
  database_after (post Sample.env_fault (Sample.atleta_in "333" "RX" "Box1"))
                 Sample.db = Sample.db
  /\ response_status HTTP_201_CREATED
       (outcome_of (post Sample.env_fault (Sample.atleta_in "333" "RX" "Box1"))
                   Sample.db) = 500.
Proof.
  pose proof (post_other_failure
                Sample.env_fault (Sample.atleta_in "333" "RX" "Box1") Sample.db
                eq_refl eq_refl eq_refl) as (_ & Hdb & Hst & _).
  split; [exact Hdb | exact Hst].
Defined.

Lemma post_created_witness :
  outcome_of (post Sample.env (Sample.atleta_in "333" "RX" "Box1")) Sample.db
  = Return (AtletaOut.mk 255%N 1000 "Caio" "333" 80%float 1.5%float "M"
              (CategoriaIn.mk "RX") (CentroTreinamentoAtleta.mk "Box1"))
  /\ atletas (database_after
                (post Sample.env (Sample.atleta_in "333" "RX" "Box1"))
                Sample.db)
     = [Sample.ana; Sample.bia;
        AtletaModel.mk (Some 3) 255%N 1000 "Caio" "333" 80%float 1.5%float
          "M" 2 7].
Proof.
  destruct (post_created
              Sample.env (Sample.atleta_in "333" "RX" "Box1") Sample.db
              eq_refl eq_refl eq_refl eq_refl)
    as (c & ct & Hc & Hct & Hout & _ & Hdb).
  split; [exact Hout|]. rewrite Hdb.
  vm_compute in Hc. injection Hc as <-.
  vm_compute in Hct. injection Hct as <-.
  reflexivity.
Defined.

(** ** The listings *)

(** C3: whenever the store answers the select of the search with no row,
    [query_by_name_or_cpf] raises the 404 error; whenever it answers the
    select of the listing with no row, [query_all] returns the empty list
    (status 200). *)
Theorem empty_page_search_fails_list_returns (db : Database) :
  (forall nome cpf limit offset,
      run_select db (search_query nome cpf limit offset) = Return [] ->
      outcome_of (query_by_name_or_cpf nome cpf limit offset) db
      = Raise (HTTPException 404
                 "Nenhum atleta encontrado com o critério fornecido.")
      /\ response_status HTTP_200_OK
           (outcome_of (query_by_name_or_cpf nome cpf limit offset) db) = 404)
  /\
  (forall limit offset,
      run_select db (offset_ (limit_ select_AtletaModel limit) offset)
      = Return [] ->
      outcome_of (query_all limit offset) db = Return []
      /\ response_status HTTP_200_OK (outcome_of (query_all limit offset) db)
         = 200).
Proof.
  split.
  - intros nome cpf limit offset H. unfold outcome_of.
    rewrite query_by_name_or_cpf_run. cbv zeta. rewrite H.
    split; reflexivity.
  - intros limit offset H. unfold outcome_of.
    rewrite query_all_run. cbv zeta. rewrite H. split; reflexivity.
Qed.

Lemma empty_page_search_fails_list_returns_witness :
  response_status HTTP_200_OK
    (outcome_of (query_by_name_or_cpf (Some "Zed"%string) None 10 0) Sample.db)
  = 404
  /\ outcome_of (query_all 10 2) Sample.db = Return [].
Proof.
  destruct (empty_page_search_fails_list_returns Sample.db) as [Hs Hl].
  split.
  - apply (Hs (Some "Zed"%string) None 10 0). reflexivity.
  - apply (Hl 10 2). reflexivity.
Defined.

(** C7, as stated, at a negative limit: a store that rejects the statement
    makes [query_all] fail, and a store that reads it as no limit returns
    every row; in neither case is the answer a list of at most [limit]
    dictionaries. *)
Lemma query_all_negative_limit :
  outcome_of (query_all (-1) 0) Sample.db = Raise DBAPIError
  /\ outcome_of (query_all (-1) 0) Sample.db_lenient
     = Return [atleta_dict.mk "Ana" "Box1" "RX";
               atleta_dict.mk "Bia" "Box1" "Scale"]
  /\ ~ (exists dicts,
           outcome_of (query_all (-1) 0) Sample.db = Return dicts
           /\ Z.of_nat (length dicts) <= -1)
  /\ ~ (exists dicts,
           outcome_of (query_all (-1) 0) Sample.db_lenient = Return dicts
           /\ Z.of_nat (length dicts) <= -1).
Proof.
  repeat split; try reflexivity.
  - intros (dicts & H & _). discriminate H.
  - intros (dicts & _ & H). lia.
Qed.

(** C7 (amended): for a limit and an offset that are not negative,
    [query_all] reads the rows of the table from [offset] on, at most [limit]
    of them, in the table's order; it returns the empty list when there is
    no such row, in particular when [limit] is 0, and it returns one
    dictionary (name, training centre, category) per row, in the same order,
    when every row has its two references.  The database is not changed. *)
Theorem query_all_page (db : Database) (limit offset : Z) :
  0 <= limit -> 0 <= offset ->
  let page := firstn (Z.to_nat limit) (skipn (Z.to_nat offset) (atletas db)) in
  (references_valid db = true ->
   exists dicts,
     outcome_of (query_all limit offset) db = Return dicts
     /\ Forall2 (is_summary_of db) page dicts
     /\ Z.of_nat (length dicts) <= limit
     /\ response_status HTTP_200_OK (outcome_of (query_all limit offset) db)
        = 200)
  /\ (page = [] -> outcome_of (query_all limit offset) db = Return [])
  /\ (limit = 0 -> outcome_of (query_all limit offset) db = Return [])
  /\ database_after (query_all limit offset) db = db
  /\ query_all (Query 10 None) (Query 0 None) = query_all 10 0.
Proof.
  intros Hl Ho page.
  assert (Hrun : run_select db (offset_ (limit_ select_AtletaModel limit) offset)
                 = Return page).
  { rewrite run_select_page by assumption.
    cbn [whereclause select_AtletaModel]. now rewrite rows_where_nil. }
  assert (Hempty : page = [] ->
                   outcome_of (query_all limit offset) db = Return []).
  { intros Hp. unfold outcome_of. rewrite query_all_run. cbv zeta.
    rewrite Hrun, Hp. reflexivity. }
  split; [|split; [exact Hempty|split; [|split; [|reflexivity]]]].
  - intros Hvalid.
    destruct (atleta_dicts_of_valid db page) as (dicts & Hd).
    { apply forallb_page. exact Hvalid. }
    exists dicts. unfold outcome_of. rewrite query_all_run. cbv zeta.
    rewrite Hrun, Hd. cbn [fst response_status].
    pose proof (atleta_dicts_of_summary _ _ _ Hd) as Hsum.
    repeat split; try assumption.
    rewrite <- (Forall2_length Hsum).
    pose proof (firstn_length_le (Z.to_nat limit)
                  (skipn (Z.to_nat offset) (atletas db))).
    fold page in H. lia.
  - intros ->. apply Hempty. reflexivity.
  - unfold database_after. rewrite query_all_run. cbv zeta. rewrite Hrun.
    destruct (atleta_dicts_of db page); reflexivity.
Qed.

Lemma query_all_page_witness :
  outcome_of (query_all 1 1) Sample.db
  = Return [atleta_dict.mk "Bia" "Box1" "Scale"]
  /\ outcome_of (query_all 0 0) Sample.db = Return [].
Proof.
  destruct (query_all_page Sample.db 1 1 ltac:(lia) ltac:(lia))
    as (H & _).
  destruct (H eq_refl) as (dicts & Hout & _).
  destruct (query_all_page Sample.db 0 0 ltac:(lia) ltac:(lia))
    as (_ & _ & H0 & _).
  split; [|exact (H0 eq_refl)].
  rewrite Hout. vm_compute in Hout. injection Hout as <-. reflexivity.
Defined.

(** ** The filters of the search *)

Lemma search_filters_nome (nome cpf : option string) (n : string) :
  In (NomeEq n) (whereclause (search_filters nome cpf)) ->
  nome = Some n /\ n <> ""%string.
Proof.
  unfold search_filters, truthy, filter_, select_AtletaModel.
  destruct nome as [m|], cpf as [c|];
    try destruct (String.eqb_spec m ""); try destruct (String.eqb_spec c "");
    cbn; intros H;
    repeat match goal with
           | H : _ \/ _ |- _ => destruct H
           | H : False |- _ => destruct H
           | H : NomeEq _ = NomeEq _ |- _ => injection H as ->
           | H : CpfEq _ = NomeEq _ |- _ => discriminate H
           end; auto.
Qed.

Lemma search_filters_truthy_nome (n : string) (cpf : option string) :
  truthy (Some n) = true ->
  In (NomeEq n) (whereclause (search_filters (Some n) cpf)).
Proof.
  unfold search_filters, filter_, select_AtletaModel. intros ->.
  destruct cpf as [c|]; [destruct (truthy (Some c))|]; cbn; auto.
Qed.

(** C9: an empty string for [nome] (for [cpf]) builds the statement, and so
    the answer, of a search without that parameter: no criterion on the name
    (on the cpf) is added.  A name criterion of the search is never the empty
    string, so a row whose name is empty does not satisfy it, and a search
    with a truthy [nome] returns no dictionary with an empty name. *)
Theorem search_empty_string_is_no_filter :
  (forall cpf limit offset,
      search_query (Some ""%string) cpf limit offset
      = search_query None cpf limit offset
      /\ query_by_name_or_cpf (Some ""%string) cpf limit offset
         = query_by_name_or_cpf None cpf limit offset
      /\ forall n, ~ In (NomeEq n)
                     (whereclause (search_query (Some ""%string) cpf
                                                limit offset)))
  /\ (forall nome limit offset,
         search_query nome (Some ""%string) limit offset
         = search_query nome None limit offset
         /\ query_by_name_or_cpf nome (Some ""%string) limit offset
            = query_by_name_or_cpf nome None limit offset
         /\ forall c, ~ In (CpfEq c)
                        (whereclause (search_query nome (Some ""%string)
                                                   limit offset)))
  /\ (forall nome cpf limit offset n a,
         In (NomeEq n) (whereclause (search_query nome cpf limit offset)) ->
         AtletaModel.nome a = ""%string ->
         satisfies a (NomeEq n) = false)
  /\ (forall db nome cpf limit offset dicts,
         truthy nome = true ->
         outcome_of (query_by_name_or_cpf nome cpf limit offset) db
         = Return dicts ->
         Forall (fun d => atleta_dict.nome d <> ""%string) dicts).
Proof.
  split; [|split; [|split]].
  - intros cpf limit offset. repeat split.
    intros n H. change (whereclause _)
      with (whereclause (search_filters None cpf)) in H.
    apply search_filters_nome in H. destruct H as [H _]. discriminate H.
  - intros nome limit offset. repeat split.
    intros c H. unfold search_query, search_filters, truthy, filter_ in H.
    destruct nome as [m|]; [destruct (String.eqb m "")|]; cbn in H;
      repeat match goal with
             | H : _ \/ _ |- _ => destruct H
             | H : False |- _ => destruct H
             | H : NomeEq _ = CpfEq _ |- _ => discriminate H
             end.
  - intros nome cpf limit offset n a H Ha.
    change (whereclause _) with (whereclause (search_filters nome cpf)) in H.
    apply search_filters_nome in H. destruct H as [_ Hn].
    cbn. rewrite Ha. apply String.eqb_neq. congruence.
  - intros db nome cpf limit offset dicts Hnome Hout.
    destruct nome as [n|]; [|discriminate Hnome].
    pose proof (search_filters_truthy_nome n cpf Hnome) as Hin.
    assert (Hn : n <> ""%string) by (apply (search_filters_nome _ _ _ Hin)).
    unfold outcome_of in Hout. rewrite query_by_name_or_cpf_run in Hout.
    cbv zeta in Hout.
    destruct (run_select db (search_query (Some n) cpf limit offset))
      as [rows|e] eqn:Hrows; [|discriminate Hout].
    destruct (atleta_dicts_of db rows) as [ds|] eqn:Hds; [|discriminate Hout].
    assert (dicts = ds) as ->.
    { destruct ds; [discriminate Hout|]. now injection Hout as <-. }
    pose proof (atleta_dicts_of_summary _ _ _ Hds) as Hsum.
    assert (Hnames : forall a, In a rows -> AtletaModel.nome a <> ""%string).
    { intros a Ha. destruct (run_select_sound _ _ _ _ Hrows Ha) as [_ Hsat].
      change (whereclause _) with (whereclause (search_filters (Some n) cpf))
        in Hsat.
      pose proof (proj1 (forallb_forall _ _) Hsat _ Hin) as Hs.
      cbn in Hs. apply String.eqb_eq in Hs. congruence. }
    clear Hrows Hds Hout. induction Hsum as [|a d rows ds Had _ IH].
    + constructor.
    + constructor.
      * destruct Had as [-> _]. apply Hnames. now left.
      * apply IH. intros a' Ha'. apply Hnames. now right.
Qed.

Lemma search_empty_string_is_no_filter_witness :
  satisfies (AtletaModel.mk (Some 9) 9%N 0 "" "999" 70%float 1.5%float "F" 1 7)
            (NomeEq "Ana") = false
  /\ Forall (fun d => atleta_dict.nome d <> ""%string)
            [atleta_dict.mk "Ana" "Box1" "RX"].
Proof.
  destruct search_empty_string_is_no_filter as (_ & _ & Hrow & Hdicts).
  split.
  - apply (Hrow (Some "Ana"%string) None 10 0).
    + cbn. left. reflexivity.
    + reflexivity.
  - apply (Hdicts Sample.db (Some "Ana"%string) None 10 0); reflexivity.
Defined.

(** C10, as stated, on a store that rejects negative bounds: one row matches
    the name, the offset is 1, the limit is negative and the search fails
    with the store's error (status 500), not with the 404 error; so does the
    search with limit 0 and a negative offset. *)
Lemma search_rejected_page_is_not_404 :
  rows_where (whereclause (search_filters (Some "Ana"%string) None))
             (atletas Sample.db) = [Sample.ana]
  /\ outcome_of (query_by_name_or_cpf (Some "Ana"%string) None (-1) 1)
                Sample.db = Raise DBAPIError
  /\ response_status HTTP_200_OK
       (outcome_of (query_by_name_or_cpf (Some "Ana"%string) None (-1) 1)
                   Sample.db) = 500
  /\ outcome_of (query_by_name_or_cpf (Some "Ana"%string) None 0 (-1))
                Sample.db = Raise DBAPIError
  /\ response_status HTTP_200_OK
       (outcome_of (query_by_name_or_cpf (Some "Ana"%string) None 0 (-1))
                   Sample.db) <> 404.
Proof. repeat split. discriminate. Qed.

(** C10 (amended): the page is cut out of the rows that pass the filters
    before the answer is tested for emptiness.  With [n] rows passing the
    filters, a search with a limit that is not negative and an offset of at
    least [n], or with limit 0 and an offset that is not negative, raises the
    404 error, however many rows pass the filters. *)
Theorem search_page_past_matches
        (db : Database) (nome cpf : option string) (limit offset : Z) :
  let n := Z.of_nat (length (rows_where (whereclause (search_filters nome cpf))
                                        (atletas db))) in
  (0 <= limit -> n <= offset ->
   outcome_of (query_by_name_or_cpf nome cpf limit offset) db
   = Raise (HTTPException 404
              "Nenhum atleta encontrado com o critério fornecido."))
  /\
  (limit = 0 -> 0 <= offset ->
   outcome_of (query_by_name_or_cpf nome cpf limit offset) db
   = Raise (HTTPException 404
              "Nenhum atleta encontrado com o critério fornecido.")).
Proof.
  intros n.
  assert (Hpage : forall page,
             run_select db (search_query nome cpf limit offset) = Return page ->
             page = [] ->
             outcome_of (query_by_name_or_cpf nome cpf limit offset) db
             = Raise no_atleta_matches).
  { intros page Hrun ->. unfold outcome_of.
    rewrite query_by_name_or_cpf_run. cbv zeta. rewrite Hrun. reflexivity. }
  split.
  - intros Hl Hn. eapply Hpage.
    + unfold search_query. apply run_select_page; lia.
    + rewrite skipn_all2 by (unfold n in Hn; lia). apply firstn_nil.
  - intros -> Ho. eapply Hpage.
    + unfold search_query. apply run_select_page; lia.
    + reflexivity.
Qed.

Lemma search_page_past_matches_witness :
  rows_where (whereclause (search_filters (Some "Ana"%string) None))
             (atletas Sample.db) = [Sample.ana]
  /\ response_status HTTP_200_OK
       (outcome_of (query_by_name_or_cpf (Some "Ana"%string) None 10 1)
                   Sample.db) = 404
  /\ response_status HTTP_200_OK
       (outcome_of (query_by_name_or_cpf (Some "Ana"%string) None 0 0)
                   Sample.db) = 404.
Proof.
  split; [reflexivity|]. split.
  - rewrite (proj1 (search_page_past_matches
                      Sample.db (Some "Ana"%string) None 10 1));
      [reflexivity | lia | simpl; lia].
  - rewrite (proj2 (search_page_past_matches
                      Sample.db (Some "Ana"%string) None 0 0));
      [reflexivity | reflexivity | lia].
Defined.

(** On a store that reads negative bounds as no bound, the page is empty
    whatever the sign of the other bound. *)
Lemma search_page_past_matches_lenient
      (db : Database) (nome cpf : option string) (limit offset : Z) :
  negative_bounds db = Lenient ->
  Z.of_nat (length (rows_where (whereclause (search_filters nome cpf))
                               (atletas db))) <= offset
  \/ limit = 0 ->
  outcome_of (query_by_name_or_cpf nome cpf limit offset) db
  = Raise no_atleta_matches.
Proof.
  intros Hrule Hcase. unfold outcome_of. rewrite query_by_name_or_cpf_run.
  cbv zeta.
  assert (Hrun : run_select db (search_query nome cpf limit offset)
                 = Return []).
  { unfold run_select, apply_offset, apply_limit, search_query.
    cbn [offset_ limit_ offset_clause limit_clause whereclause].
    rewrite Hrule.
    set (rows := rows_where (whereclause (search_filters nome cpf))
                            (atletas db)) in *.
    destruct Hcase as [Hn| ->].
    - assert (Ho : (offset <? 0) = false) by (apply Z.ltb_ge; lia).
      rewrite Ho, skipn_all2 by lia.
      destruct (limit <? 0); [reflexivity|]. now rewrite firstn_nil.
    - destruct (offset <? 0); reflexivity. }
  rewrite Hrun. reflexivity.
Qed.

(** ** The handlers of one athlete *)

Lemma rows_where_id (id : UUID) (rows : list AtletaModel.t) :
  rows_where [IdEq id] rows
  = filter (fun a => N.eqb (AtletaModel.id a) id) rows.
Proof.
  unfold rows_where. induction rows as [|a rows IH]; cbn; [reflexivity|].
  cbn in IH. rewrite IH, andb_true_r. reflexivity.
Qed.

Lemma select_by_id_run (db : Database) (id : UUID) :
  run_select db (filter_ select_AtletaModel (IdEq id))
  = Return (filter (fun a => N.eqb (AtletaModel.id a) id) (atletas db)).
Proof.
  unfold filter_, select_AtletaModel. cbn [whereclause app limit_clause
                                            offset_clause].
  rewrite run_select_unpaged, rows_where_id. reflexivity.
Qed.

Lemma query_by_id_run (db : Database) (id : UUID) :
  serve (query_by_id id) db
  = let s := mkSession db [] [] []
               [Execute (SelectAtleta (filter_ select_AtletaModel (IdEq id)))]
    in
    match scalars_first (filter (fun a => N.eqb (AtletaModel.id a) id)
                                (atletas db)) with
    | Some atleta => (Return atleta, s)
    | None => (Raise (atleta_not_found id), s)
    end.
Proof.
  unfold serve, query_by_id, bind, execute.
  cbn [open_session database]. rewrite select_by_id_run.
  destruct (scalars_first _); reflexivity.
Qed.

(** *** Keys and identifiers of the stored rows *)

Lemma distinct_pks_has_pk (rows : list AtletaModel.t) (a : AtletaModel.t) :
  distinct_pks rows = true -> In a rows ->
  exists k, AtletaModel.pk_id a = Some k.
Proof.
  induction rows as [|x rows IH]; simpl; [tauto|].
  intros H [->|Hin].
  - destruct (AtletaModel.pk_id a) as [k|]; [eauto|discriminate].
  - apply andb_prop in H. destruct H as [_ H]. auto.
Qed.

Lemma has_pk_of (a : AtletaModel.t) (k : Z) :
  AtletaModel.pk_id a = Some k -> AtletaModel.has_pk k a = true.
Proof. unfold AtletaModel.has_pk. intros ->. apply Z.eqb_refl. Qed.

Lemma has_pk_inv (a : AtletaModel.t) (k : Z) :
  AtletaModel.has_pk k a = true -> AtletaModel.pk_id a = Some k.
Proof.
  unfold AtletaModel.has_pk. destruct (AtletaModel.pk_id a) as [p|];
    [|discriminate].
  intros H. apply Z.eqb_eq in H. now subst.
Qed.

Lemma distinct_pks_same (rows : list AtletaModel.t) (a r : AtletaModel.t)
      (k : Z) :
  distinct_pks rows = true -> In a rows -> In r rows ->
  AtletaModel.has_pk k a = true -> AtletaModel.has_pk k r = true -> r = a.
Proof.
  induction rows as [|x rows IH]; simpl; [tauto|].
  intros H Ha Hr Hka Hkr. apply andb_prop in H. destruct H as [Hx Hrows].
  assert (Hout : forall y, In y rows -> AtletaModel.has_pk k x = true ->
                           AtletaModel.has_pk k y = true -> False).
  { intros y Hy Hkx Hky. apply has_pk_inv in Hkx. rewrite Hkx in Hx.
    apply negb_true_iff in Hx.
    assert (existsb (AtletaModel.has_pk k) rows = true)
      by (apply existsb_exists; eauto).
    congruence. }
  destruct Ha as [->|Ha], Hr as [->|Hr]; auto.
  - exfalso. eauto.
  - exfalso. eauto.
Qed.

Lemma distinct_pks_find (rows : list AtletaModel.t) (a : AtletaModel.t)
      (k : Z) :
  distinct_pks rows = true -> In a rows -> AtletaModel.has_pk k a = true ->
  find (AtletaModel.has_pk k) rows = Some a.
Proof.
  intros Hd Hin Hk.
  destruct (find_of_in (AtletaModel.has_pk k) rows a Hin Hk) as (y & Hy & _).
  rewrite Hy. f_equal.
  apply find_some in Hy. destruct Hy as [Hyin Hyk].
  exact (distinct_pks_same rows a y k Hd Hin Hyin Hk Hyk).
Qed.

Lemma distinct_pks_replace_same (rows : list AtletaModel.t)
      (a : AtletaModel.t) (k : Z) :
  distinct_pks rows = true -> In a rows -> AtletaModel.has_pk k a = true ->
  map (fun r => if AtletaModel.has_pk k r then a else r) rows = rows.
Proof.
  intros Hd Hin Hk. rewrite <- (map_id rows) at 2. apply map_ext_in.
  intros r Hr. destruct (AtletaModel.has_pk k r) eqn:Hkr; [|reflexivity].
  symmetry. exact (distinct_pks_same rows a r k Hd Hin Hr Hk Hkr).
Qed.

Lemma find_replaced (rows : list AtletaModel.t) (a' : AtletaModel.t) (k : Z) :
  existsb (AtletaModel.has_pk k) rows = true ->
  AtletaModel.has_pk k a' = true ->
  find (AtletaModel.has_pk k)
       (map (fun r => if AtletaModel.has_pk k r then a' else r) rows)
  = Some a'.
Proof.
  intros He Hk. induction rows as [|x rows IH]; simpl in *; [discriminate|].
  destruct (AtletaModel.has_pk k x) eqn:Hx.
  - now rewrite Hk.
  - rewrite Hx. apply IH. exact He.
Qed.

Lemma distinct_ids_same (rows : list AtletaModel.t) (a r : AtletaModel.t) :
  distinct_ids rows = true -> In a rows -> In r rows ->
  AtletaModel.id r = AtletaModel.id a -> r = a.
Proof.
  induction rows as [|x rows IH]; simpl; [tauto|].
  intros H Ha Hr Hid. apply andb_prop in H. destruct H as [Hx Hrows].
  apply negb_true_iff in Hx.
  assert (Hout : forall y, In y rows ->
                           AtletaModel.id y = AtletaModel.id x -> False).
  { intros y Hy Hyx.
    assert (existsb (fun r => N.eqb (AtletaModel.id r) (AtletaModel.id x))
                    rows = true).
    { apply existsb_exists. exists y. split; [exact Hy|].
      now apply N.eqb_eq. }
    congruence. }
  destruct Ha as [->|Ha], Hr as [->|Hr]; auto.
  - exfalso. eauto.
  - exfalso. eapply Hout; eauto.
Qed.

(** *** The partial update *)

Lemma assign_pk (a : AtletaModel.t) (kv : item) :
  AtletaModel.pk_id (assign a kv) = AtletaModel.pk_id a.
Proof. destruct a, kv; reflexivity. Qed.

Lemma for_items_run (items : list item) (a : AtletaModel.t) (s : Session)
      (k : Z) :
  AtletaModel.pk_id a = Some k ->
  (forall r, In r (dirty s) -> AtletaModel.has_pk k r = true) ->
  for_items a items s
  = (Return (fold_left assign items a),
     mkSession (database s) (new s)
       (match items with
        | [] => dirty s
        | _ => [fold_left assign items a]
        end)
       (deleted s) (calls s)).
Proof.
  revert a s. induction items as [|kv items IH]; intros a s Hpk Hdirty.
  - destruct s. reflexivity.
  - cbn [for_items fold_left]. unfold bind, setattr. rewrite Hpk.
    assert (Hnone : filter (fun r => negb (AtletaModel.has_pk k r)) (dirty s)
                    = []).
    { apply filter_none. apply not_true_is_false. intros H.
      apply existsb_exists in H. destruct H as (r & Hr & Hk).
      rewrite (Hdirty r Hr) in Hk. discriminate. }
    rewrite Hnone, (IH (assign a kv)).
    + cbn [database new dirty deleted calls]. destruct items; reflexivity.
    + now rewrite assign_pk.
    + cbn [dirty]. intros r [<-|[]]. apply has_pk_of. now rewrite assign_pk.
Qed.

(** The loop of [setattr] computes the sparse patch of the spec. *)
Lemma setattr_loop_is_sparse_patch (atleta_up : AtletaUpdate.t)
      (a : AtletaModel.t) :
  fold_left assign (model_dump_exclude_unset atleta_up) a
  = sparse_patch atleta_up a.
Proof.
  destruct a, atleta_up as [[?|] [?|] [?|] [?|] [?|]]; reflexivity.
Qed.

Lemma no_item_no_change (atleta_up : AtletaUpdate.t) (a : AtletaModel.t) :
  model_dump_exclude_unset atleta_up = [] -> sparse_patch atleta_up a = a.
Proof.
  destruct a, atleta_up as [[?|] [?|] [?|] [?|] [?|]];
    try discriminate; reflexivity.
Qed.

(** C4, as stated, on two requests for a stored [id]: a body whose [cpf] is
    that of another athlete, and a body with a weight while the store fails
    at commit.  The commit raises, [patch] has no handler for it (status 500),
    and the stored row keeps every field, the ones of the body included. *)
Lemma patch_commit_refused :
  outcome_of (patch Sample.env 6%N (Sample.only_cpf "111")) Sample.db
  = Raise IntegrityError
  /\ response_status HTTP_200_OK
       (outcome_of (patch Sample.env 6%N (Sample.only_cpf "111")) Sample.db)
     = 500
  /\ database_after (patch Sample.env 6%N (Sample.only_cpf "111")) Sample.db
     = Sample.db
  /\ outcome_of (patch Sample.env 6%N (Sample.only_cpf "111")) Sample.db
     <> Return (sparse_patch (Sample.only_cpf "111") Sample.bia)
  /\ outcome_of (patch Sample.env_fault 6%N (Sample.only_peso 71%float))
                Sample.db
     = Raise DBAPIError
  /\ database_after (patch Sample.env_fault 6%N (Sample.only_peso 71%float))
                    Sample.db
     = Sample.db.
Proof. repeat split. discriminate. Qed.

(** C4 (amended): on the first stored athlete with the requested [id], in a
    table whose primary keys are distinct, when the store does not fail at
    commit and no other row holds the resulting [cpf], [patch] returns (status 200) the
    sparse patch of that row: the fields present in the body take the body's
    values, every other field keeps its value.  The row is updated in place
    in the table, the other rows are as they were, and the returned object is
    the row read again by [refresh] after the commit. *)
Theorem patch_sparse (env : Env) (id : UUID) (atleta_up : AtletaUpdate.t)
        (db : Database) (atleta : AtletaModel.t) :
  scalars_first (filter (fun a => N.eqb (AtletaModel.id a) id) (atletas db))
  = Some atleta ->
  distinct_pks (atletas db) = true ->
  commit_fault env = false ->
  cpf_held_by_other (AtletaModel.cpf (sparse_patch atleta_up atleta))
                    (sparse_patch atleta_up atleta) (atletas db) = false ->
  let atleta' := sparse_patch atleta_up atleta in
  outcome_of (patch env id atleta_up) db = Return atleta'
  /\ response_status HTTP_200_OK (outcome_of (patch env id atleta_up) db) = 200
  /\ (exists k,
         AtletaModel.pk_id atleta = Some k
         /\ atletas (database_after (patch env id atleta_up) db)
            = map (fun r => if AtletaModel.has_pk k r then atleta' else r)
                  (atletas db)
         /\ find (AtletaModel.has_pk k)
                 (atletas (database_after (patch env id atleta_up) db))
            = Some atleta')
  /\ calls_of (patch env id atleta_up) db
     = [Execute (SelectAtleta (filter_ select_AtletaModel (IdEq id)));
        Commit; Refresh atleta']
  /\ (AtletaUpdate.nome atleta_up = None ->
      AtletaModel.nome atleta' = AtletaModel.nome atleta)
  /\ (AtletaUpdate.cpf atleta_up = None ->
      AtletaModel.cpf atleta' = AtletaModel.cpf atleta)
  /\ (AtletaUpdate.peso atleta_up = None ->
      AtletaModel.peso atleta' = AtletaModel.peso atleta)
  /\ (AtletaUpdate.altura atleta_up = None ->
      AtletaModel.altura atleta' = AtletaModel.altura atleta)
  /\ (AtletaUpdate.sexo atleta_up = None ->
      AtletaModel.sexo atleta' = AtletaModel.sexo atleta)
  /\ AtletaModel.id atleta' = AtletaModel.id atleta
  /\ AtletaModel.created_at atleta' = AtletaModel.created_at atleta
  /\ AtletaModel.categoria_id atleta' = AtletaModel.categoria_id atleta
  /\ AtletaModel.centro_treinamento_id atleta'
     = AtletaModel.centro_treinamento_id atleta.
Proof.
  intros Hfirst Hpks Hfault Hcpf atleta'. fold atleta' in Hcpf.
  destruct (first_filter_in _ _ _ Hfirst) as [Hin _].
  destruct (distinct_pks_has_pk _ _ Hpks Hin) as (k & Hk).
  assert (Hk' : AtletaModel.pk_id atleta' = Some k) by exact Hk.
  pose proof (has_pk_of _ _ Hk) as Hhas.
  pose proof (has_pk_of _ _ Hk') as Hhas'.
  assert (Hex : existsb (AtletaModel.has_pk k) (atletas db) = true)
    by (apply existsb_exists; eauto).
  set (log := [Execute (SelectAtleta (filter_ select_AtletaModel (IdEq id)))]).
  assert (Hrun :
            serve (patch env id atleta_up) db
            = (Return atleta',
               mkSession
                 (set_atletas db
                    (map (fun r => if AtletaModel.has_pk k r then atleta'
                                   else r) (atletas db))
                    (atletas_pk_seq db))
                 [] [] [] (log ++ [Commit] ++ [Refresh atleta']))).
  { unfold serve, patch, bind, execute.
    cbn [open_session database]. rewrite select_by_id_run, Hfirst.
    rewrite (for_items_run _ _ _ k Hk) by (cbn; tauto).
    rewrite setattr_loop_is_sparse_patch. fold atleta'.
    unfold commit, flush, record, refresh, open_session, ret.
    cbn [database new dirty deleted calls write_all app].
    rewrite Hfault.
    destruct (model_dump_exclude_unset atleta_up) as [|kv items] eqn:Hitems.
    - cbn [write_all database calls].
      assert (atleta' = atleta) as Heq
          by (apply no_item_no_change; exact Hitems).
      rewrite Heq, Hk.
      rewrite (distinct_pks_find _ _ _ Hpks Hin Hhas).
      rewrite (distinct_pks_replace_same _ _ _ Hpks Hin Hhas).
      destruct db; reflexivity.
    - cbn [write_all]. unfold update_row. rewrite Hk', Hex, Hcpf.
      cbn [negb database calls]. rewrite ?Hk', ?Hk.
      cbn [set_atletas atletas].
      rewrite (find_replaced _ _ _ Hex Hhas'). reflexivity. }
  unfold outcome_of, database_after, calls_of. rewrite Hrun.
  cbn [fst snd database calls response_status set_atletas atletas].
  split; [reflexivity|]. split; [reflexivity|].
  split.
  { exists k. split; [exact Hk|]. split; [reflexivity|].
    exact (find_replaced _ _ _ Hex Hhas'). }
  split; [reflexivity|].
  unfold atleta', sparse_patch.
  repeat split; intros ->; reflexivity.
Qed.

Lemma patch_sparse_witness :
  outcome_of (patch Sample.env 6%N (Sample.only_peso 71%float)) Sample.db
  = Return (AtletaModel.mk (Some 2) 6%N 101 "Bia" "222" 71%float 1.5%float
                           "F" 1 7)
  /\ atletas (database_after
                (patch Sample.env 6%N (Sample.only_peso 71%float)) Sample.db)
     = [Sample.ana;
        AtletaModel.mk (Some 2) 6%N 101 "Bia" "222" 71%float 1.5%float "F" 1 7].
Proof.
  destruct (patch_sparse Sample.env 6%N (Sample.only_peso 71%float)
                         Sample.db Sample.bia
                         eq_refl eq_refl eq_refl eq_refl)
    as (Hout & _ & (k & Hk & Hrows & _) & _).
  split; [exact Hout|].
  rewrite Hrows. injection Hk as <-. reflexivity.
Defined.

(** *** Delete, then fetch *)

Lemma delete_run (env : Env) (db : Database) (id : UUID) :
  serve (delete env id) db
  = let log :=
      [Execute (SelectAtleta (filter_ select_AtletaModel (IdEq id)))] in
    match scalars_first (filter (fun a => N.eqb (AtletaModel.id a) id)
                                (atletas db)) with
    | None => (Raise (atleta_not_found id), mkSession db [] [] [] log)
    | Some atleta =>
        let log' := (log ++ [Delete atleta]) ++ [Commit] in
        if commit_fault env then
          (Raise DBAPIError, mkSession db [] [] [] log')
        else
          match delete_row db atleta with
          | Return db' => (Return tt, mkSession db' [] [] [] log')
          | Raise e => (Raise e, mkSession db [] [] [] log')
          end
    end.
Proof.
  unfold serve, delete, bind, execute, open_session, record.
  cbn [database new dirty deleted calls app]. rewrite select_by_id_run.
  destruct (scalars_first _) as [atleta|]; [|reflexivity].
  unfold delete_, commit, flush.
  cbn [database new dirty deleted calls app write_all].
  destruct (commit_fault env); [reflexivity|].
  destruct (delete_row db atleta); reflexivity.
Qed.

(** C8: in a table whose identifiers are distinct, once [delete] has
    returned (status 204) for an [id], [query_by_id] on the resulting
    database raises the 404 error for that [id].  [delete] does return when a
    stored athlete has the [id], the primary keys are in order and the store
    does not fail; and when no stored athlete has the [id], [delete] raises
    the 404 error after its look-up, without any other call on the
    session. *)
Theorem delete_then_fetch (env : Env) (id : UUID) (db : Database) :
  (distinct_ids (atletas db) = true ->
   outcome_of (delete env id) db = Return tt ->
   response_status HTTP_204_NO_CONTENT (outcome_of (delete env id) db) = 204
   /\ outcome_of (query_by_id id) (database_after (delete env id) db)
      = Raise (HTTPException 404
                 (fstring ["Atleta não encontrado com o ID: ";
                           str_uuid id]%string))
   /\ id_registered (database_after (delete env id) db) id = false)
  /\
  (id_registered db id = true ->
   distinct_pks (atletas db) = true ->
   commit_fault env = false ->
   outcome_of (delete env id) db = Return tt)
  /\
  (id_registered db id = false ->
   serve (delete env id) db
   = (Raise (HTTPException 404
               (fstring ["Atleta não encontrado com o ID: ";
                         str_uuid id]%string)),
      mkSession db [] [] []
        [Execute (SelectAtleta (filter_ select_AtletaModel (IdEq id)))])).
Proof.
  split; [|split].
  - intros Hids Hret.
    unfold outcome_of, database_after in *. rewrite delete_run in *.
    cbv zeta in *.
    destruct (scalars_first _) as [atleta|] eqn:Hfirst; [|discriminate Hret].
    destruct (commit_fault env); [discriminate Hret|].
    unfold delete_row in *.
    destruct (AtletaModel.pk_id atleta) as [k|] eqn:Hk; [|discriminate Hret].
    destruct (existsb (AtletaModel.has_pk k) (atletas db));
      [|discriminate Hret].
    cbn [negb fst snd database response_status set_atletas].
    split; [reflexivity|].
    destruct (first_filter_in _ _ _ Hfirst) as [Hin Hid].
    apply N.eqb_eq in Hid.
    assert (Hgone :
              existsb (fun r => N.eqb (AtletaModel.id r) id)
                (filter (fun r => negb (AtletaModel.has_pk k r)) (atletas db))
              = false).
    { apply not_true_is_false. intros H. apply existsb_exists in H.
      destruct H as (r & Hr & Hrid). apply filter_In in Hr.
      destruct Hr as [Hrin Hrk]. apply N.eqb_eq in Hrid.
      assert (r = atleta)
        by (apply (distinct_ids_same _ _ _ Hids Hin Hrin); congruence).
      subst r. rewrite (has_pk_of _ _ Hk) in Hrk. discriminate. }
    split; [|unfold id_registered, set_atletas; exact Hgone].
    rewrite query_by_id_run. cbv zeta. unfold set_atletas. cbn [atletas].
    rewrite (first_filter_none _ _ Hgone). reflexivity.
  - intros Hreg Hpks Hfault.
    unfold outcome_of. rewrite delete_run. cbv zeta.
    destruct (first_filter_some _ _ Hreg) as (atleta & Hfirst & Hin & _).
    rewrite Hfirst, Hfault. unfold delete_row.
    destruct (distinct_pks_has_pk _ _ Hpks Hin) as (k & Hk). rewrite Hk.
    assert (Hex : existsb (AtletaModel.has_pk k) (atletas db) = true).
    { apply existsb_exists. exists atleta. split; [exact Hin|].
      now apply has_pk_of. }
    rewrite Hex. reflexivity.
  - intros Hreg. rewrite delete_run. cbv zeta.
    rewrite (first_filter_none _ _ Hreg). reflexivity.
Qed.

Lemma delete_then_fetch_witness :
  outcome_of (delete Sample.env 6%N) Sample.db = Return tt
  /\ response_status HTTP_200_OK
       (outcome_of (query_by_id 6%N)
                   (database_after (delete Sample.env 6%N) Sample.db)) = 404
  /\ response_status HTTP_204_NO_CONTENT
       (outcome_of (delete Sample.env 9%N) Sample.db) = 404.
Proof.
  destruct (delete_then_fetch Sample.env 6%N Sample.db) as (Hfetch & Hret & _).
  destruct (delete_then_fetch Sample.env 9%N Sample.db) as (_ & _ & Hnone).
  pose proof (Hret eq_refl eq_refl eq_refl) as Hdel.
  destruct (Hfetch eq_refl Hdel) as (_ & Hq & _).
  split; [exact Hdel|]. split.
  - rewrite Hq. reflexivity.
  - unfold outcome_of. rewrite (Hnone eq_refl). reflexivity.
Defined.

(** *** The answer built from a stored row *)

Lemma response_of_valid_row (db : Database) (a : AtletaModel.t) :
  references_exist db a = true ->
  exists c ct,
    categoria_of db a = Some c
    /\ centro_treinamento_of db a = Some ct
    /\ response_AtletaOut db a
       = Return (AtletaOut.mk (AtletaModel.id a) (AtletaModel.created_at a)
                   (AtletaModel.nome a) (AtletaModel.cpf a)
                   (AtletaModel.peso a) (AtletaModel.altura a)
                   (AtletaModel.sexo a)
                   (CategoriaIn.mk (CategoriaModel.nome c))
                   (CentroTreinamentoAtleta.mk
                      (CentroTreinamentoModel.nome ct))).
Proof.
  unfold references_exist, response_AtletaOut.
  destruct (categoria_of db a) as [c|]; [|discriminate].
  destruct (centro_treinamento_of db a) as [ct|]; [|discriminate].
  intros _. exists c, ct. auto.
Qed.

(** ** The data model's invariants are kept by the handlers *)

Section KeyedRows.
Variable A : Type.
Variable key : AtletaModel.t -> A.
Variable eqb : A -> A -> bool.
Hypothesis eqb_spec : forall x y, eqb x y = true <-> x = y.

Local Abbreviation unique := (distinct key eqb).

Lemma distinct_filter (p : AtletaModel.t -> bool) rows :
  unique rows = true -> unique (filter p rows) = true.
Proof.
  induction rows as [|x rows IH]; simpl; [reflexivity|].
  intros H. apply andb_prop in H. destruct H as [Hx Hrows].
  destruct (p x); simpl; [|auto].
  rewrite (IH Hrows), andb_true_r. apply negb_true_iff in Hx.
  apply negb_true_iff, not_true_is_false. intros H.
  apply existsb_exists in H. destruct H as (r & Hr & Hk).
  apply filter_In in Hr. destruct Hr as [Hr _].
  assert (existsb (fun r => eqb (key r) (key x)) rows = true)
    by (apply existsb_exists; eauto).
  congruence.
Qed.

Lemma distinct_snoc rows a :
  unique rows = true ->
  existsb (fun r => eqb (key r) (key a)) rows = false ->
  unique (rows ++ [a]) = true.
Proof.
  induction rows as [|x rows IH]; simpl; [reflexivity|].
  intros H Ha. apply andb_prop in H. destruct H as [Hx Hrows].
  apply orb_false_elim in Ha. destruct Ha as [Hxa Ha].
  rewrite (IH Hrows Ha), andb_true_r, existsb_app. simpl.
  apply negb_true_iff in Hx. rewrite Hx, orb_false_r. simpl.
  apply negb_true_iff, not_true_is_false. intros H.
  apply eqb_spec in H. rewrite H in Hxa.
  assert (eqb (key x) (key x) = true) by now apply eqb_spec.
  congruence.
Qed.

(** Replacing rows by rows with the same key changes nothing. *)
Lemma distinct_map (f : AtletaModel.t -> AtletaModel.t) rows :
  (forall r, In r rows -> key (f r) = key r) ->
  unique (map f rows) = unique rows.
Proof.
  induction rows as [|x rows IH]; simpl; [reflexivity|].
  intros Hf. rewrite IH by auto. rewrite (Hf x) by auto.
  assert (He : existsb (fun r => eqb (key r) (key x)) (map f rows)
               = existsb (fun r => eqb (key r) (key x)) rows).
  { clear IH. induction rows as [|y rows IH]; simpl; [reflexivity|].
    rewrite (Hf y) by (simpl; auto). f_equal. apply IH. intros r Hr.
    apply Hf. simpl in *. tauto. }
  now rewrite He.
Qed.

(** Replacing one row: its new key must be held by no other row. *)
Lemma distinct_replace (sel : AtletaModel.t -> bool) (a' : AtletaModel.t)
      rows :
  unique rows = true ->
  (forall r r', In r rows -> In r' rows -> sel r = true -> sel r' = true ->
                r = r') ->
  existsb (fun r => eqb (key r) (key a') && negb (sel r)) rows = false ->
  unique (map (fun r => if sel r then a' else r) rows) = true.
Proof.
  induction rows as [|x rows IH]; simpl; [reflexivity|].
  intros H Hsel Hfree. apply andb_prop in H. destruct H as [Hx Hrows].
  apply orb_false_elim in Hfree. destruct Hfree as [Hxfree Hfree].
  rewrite IH; auto. rewrite andb_true_r.
  apply negb_true_iff, not_true_is_false. intros H.
  apply existsb_exists in H. destruct H as (y & Hy & Hk).
  apply in_map_iff in Hy. destruct Hy as (r & <- & Hr).
  apply eqb_spec in Hk. apply negb_true_iff in Hx.
  destruct (sel r) eqn:Hsr, (sel x) eqn:Hsx.
  - assert (x = r) by (apply Hsel; auto). subst r.
    assert (existsb (fun r => eqb (key r) (key x)) rows = true).
    { apply existsb_exists. exists x. split; [exact Hr|]. now apply eqb_spec. }
    congruence.
  - rewrite andb_true_r in Hxfree.
    assert (eqb (key x) (key a') = true) by (apply eqb_spec; congruence).
    congruence.
  - assert (existsb (fun r => eqb (key r) (key a') && negb (sel r)) rows
            = true).
    { apply existsb_exists. exists r. split; [exact Hr|].
      rewrite Hsr. simpl. rewrite andb_true_r. now apply eqb_spec. }
    congruence.
  - assert (existsb (fun r => eqb (key r) (key x)) rows = true).
    { apply existsb_exists. exists r. split; [exact Hr|]. now apply eqb_spec. }
    congruence.
Qed.
End KeyedRows.

Lemma distinct_ids_is (rows : list AtletaModel.t) :
  distinct_ids rows = distinct AtletaModel.id N.eqb rows.
Proof. induction rows as [|a rows IH]; simpl; congruence. Qed.

Lemma distinct_cpfs_is (rows : list AtletaModel.t) :
  distinct_cpfs rows = distinct AtletaModel.cpf String.eqb rows.
Proof. induction rows as [|a rows IH]; simpl; congruence. Qed.

Lemma has_pk_same_key (k : Z) (a b : AtletaModel.t) :
  AtletaModel.pk_id a = AtletaModel.pk_id b ->
  AtletaModel.has_pk k a = AtletaModel.has_pk k b.
Proof. unfold AtletaModel.has_pk. now intros ->. Qed.

Lemma distinct_pks_filter (p : AtletaModel.t -> bool) rows :
  distinct_pks rows = true -> distinct_pks (filter p rows) = true.
Proof.
  induction rows as [|x rows IH]; simpl; [reflexivity|].
  intros H. apply andb_prop in H. destruct H as [Hx Hrows].
  destruct (p x); simpl; [|auto].
  rewrite (IH Hrows), andb_true_r.
  destruct (AtletaModel.pk_id x) as [k|]; [|discriminate].
  apply negb_true_iff in Hx. apply negb_true_iff, not_true_is_false.
  intros H. apply existsb_exists in H. destruct H as (r & Hr & Hk).
  apply filter_In in Hr. destruct Hr as [Hr _].
  assert (existsb (AtletaModel.has_pk k) rows = true)
    by (apply existsb_exists; eauto).
  congruence.
Qed.

Lemma distinct_pks_snoc rows a k :
  distinct_pks rows = true ->
  AtletaModel.pk_id a = Some k ->
  existsb (AtletaModel.has_pk k) rows = false ->
  distinct_pks (rows ++ [a]) = true.
Proof.
  intros H Hk. induction rows as [|x rows IH]; simpl.
  - intros _. now rewrite Hk.
  - intros Hfree. simpl in H. apply andb_prop in H. destruct H as [Hx Hrows].
    apply orb_false_elim in Hfree. destruct Hfree as [Hxk Hfree].
    rewrite (IH Hrows Hfree), andb_true_r.
    destruct (AtletaModel.pk_id x) as [kx|] eqn:Hkx; [|discriminate].
    apply negb_true_iff in Hx. rewrite existsb_app, Hx. simpl.
    rewrite orb_false_r. unfold AtletaModel.has_pk in *.
    rewrite Hk. rewrite Hkx in Hxk. rewrite Z.eqb_sym, Hxk. reflexivity.
Qed.

Lemma distinct_pks_map (f : AtletaModel.t -> AtletaModel.t) rows :
  (forall r, In r rows -> AtletaModel.pk_id (f r) = AtletaModel.pk_id r) ->
  distinct_pks (map f rows) = distinct_pks rows.
Proof.
  induction rows as [|x rows IH]; simpl; [reflexivity|].
  intros Hf. rewrite IH by auto. rewrite (Hf x) by auto.
  destruct (AtletaModel.pk_id x) as [k|]; [|reflexivity].
  assert (He : existsb (AtletaModel.has_pk k) (map f rows)
               = existsb (AtletaModel.has_pk k) rows).
  { clear IH. induction rows as [|y rows IH]; simpl; [reflexivity|].
    rewrite (has_pk_same_key k (f y) y) by (apply Hf; simpl; auto).
    f_equal. apply IH. intros r Hr. apply Hf. simpl in *. tauto. }
  now rewrite He.
Qed.

Lemma pks_below_seq_free (db : Database) :
  pks_below_seq db = true ->
  existsb (AtletaModel.has_pk (atletas_pk_seq db)) (atletas db) = false.
Proof.
  unfold pks_below_seq. intros H. apply not_true_is_false. intros He.
  apply existsb_exists in He. destruct He as (r & Hr & Hk).
  pose proof (proj1 (forallb_forall _ _) H r Hr) as Hlt.
  cbv beta in Hlt. rewrite (has_pk_inv _ _ Hk) in Hlt. apply Z.ltb_lt in Hlt. lia.
Qed.

Lemma well_formed_parts (db : Database) :
  well_formed db = true <->
  distinct_pks (atletas db) = true /\ pks_below_seq db = true
  /\ distinct_ids (atletas db) = true /\ distinct_cpfs (atletas db) = true
  /\ references_valid db = true.
Proof.
  unfold well_formed. rewrite !andb_true_iff. tauto.
Qed.

(** *** The three writes *)

Lemma insert_row_well_formed (db db' : Database) (a : AtletaModel.t) :
  well_formed db = true ->
  id_registered db (AtletaModel.id a) = false ->
  AtletaModel.pk_id a = None ->
  insert_row db a = Return db' ->
  well_formed db' = true.
Proof.
  intros Hwf Hid Hpk. apply well_formed_parts in Hwf.
  destruct Hwf as (Hpks & Hseq & Hids & Hcpfs & Hrefs).
  unfold insert_row. rewrite (cpf_held_by_new _ _ _ Hpk).
  destruct (existsb _ (atletas db)) eqn:Hcpf; [discriminate|].
  destruct (references_exist db a) eqn:Href; [|discriminate].
  cbn [negb]. intros H. injection H as <-.
  apply well_formed_parts. unfold set_atletas.
  cbn [atletas]. repeat split.
  - apply (distinct_pks_snoc _ _ (atletas_pk_seq db)); auto.
    now apply pks_below_seq_free.
  - unfold pks_below_seq in *. cbn [atletas atletas_pk_seq].
    rewrite forallb_app. apply andb_true_iff. split.
    + apply forallb_forall. intros r Hr.
      pose proof (proj1 (forallb_forall _ _) Hseq r Hr) as Hlt.
      cbv beta in Hlt. destruct (AtletaModel.pk_id r) as [k|]; [|discriminate].
      apply Z.ltb_lt in Hlt. apply Z.ltb_lt. lia.
    + cbn. rewrite andb_true_r. apply Z.ltb_lt. lia.
  - rewrite distinct_ids_is in *.
    apply (distinct_snoc _ _ _ N.eqb_eq); auto.
  - rewrite distinct_cpfs_is in *.
    apply (distinct_snoc _ _ _ String.eqb_eq); auto.
  - unfold references_valid in *. cbn [atletas].
    rewrite forallb_app. apply andb_true_iff. split; [exact Hrefs|].
    cbn. rewrite andb_true_r. exact Href.
Qed.

Lemma delete_row_well_formed (db db' : Database) (a : AtletaModel.t) :
  well_formed db = true ->
  delete_row db a = Return db' ->
  well_formed db' = true.
Proof.
  intros Hwf. apply well_formed_parts in Hwf.
  destruct Hwf as (Hpks & Hseq & Hids & Hcpfs & Hrefs).
  unfold delete_row. destruct (AtletaModel.pk_id a) as [k|]; [|discriminate].
  destruct (negb _); [discriminate|]. intros H. injection H as <-.
  apply well_formed_parts. unfold set_atletas. cbn [atletas]. repeat split.
  - now apply distinct_pks_filter.
  - unfold pks_below_seq in *. cbn [atletas atletas_pk_seq].
    apply forallb_forall. intros r Hr. apply filter_In in Hr.
    exact (proj1 (forallb_forall _ _) Hseq r (proj1 Hr)).
  - rewrite distinct_ids_is in *. now apply distinct_filter.
  - rewrite distinct_cpfs_is in *. now apply distinct_filter.
  - unfold references_valid in *. cbn [atletas].
    apply forallb_forall. intros r Hr. apply filter_In in Hr.
    exact (proj1 (forallb_forall _ _) Hrefs r (proj1 Hr)).
Qed.

Lemma update_row_well_formed (db db' : Database) (a' atleta : AtletaModel.t) :
  well_formed db = true ->
  In atleta (atletas db) ->
  AtletaModel.pk_id a' = AtletaModel.pk_id atleta ->
  AtletaModel.id a' = AtletaModel.id atleta ->
  AtletaModel.categoria_id a' = AtletaModel.categoria_id atleta ->
  AtletaModel.centro_treinamento_id a'
  = AtletaModel.centro_treinamento_id atleta ->
  update_row db a' = Return db' ->
  well_formed db' = true.
Proof.
  intros Hwf Hin Hpk Hid Hcat Hct. apply well_formed_parts in Hwf.
  destruct Hwf as (Hpks & Hseq & Hids & Hcpfs & Hrefs).
  unfold update_row, cpf_held_by_other.
  destruct (AtletaModel.pk_id a') as [k|] eqn:Hk; [|discriminate].
  destruct (negb _); [discriminate|].
  destruct (existsb _ (atletas db)) eqn:Hcpf; [discriminate|].
  intros H. injection H as <-.
  assert (Hhas : AtletaModel.has_pk k atleta = true)
    by (apply has_pk_of; congruence).
  assert (Hsame : forall r, In r (atletas db) ->
                            AtletaModel.has_pk k r = true -> r = atleta).
  { intros r Hr Hkr. exact (distinct_pks_same _ _ _ _ Hpks Hin Hr Hhas Hkr). }
  assert (Hpk_f : forall r, In r (atletas db) ->
              AtletaModel.pk_id (if AtletaModel.has_pk k r then a' else r)
              = AtletaModel.pk_id r).
  { intros r Hr. destruct (AtletaModel.has_pk k r) eqn:Hkr; [|reflexivity].
    rewrite (has_pk_inv _ _ Hkr). exact Hk. }
  apply well_formed_parts. unfold set_atletas. cbn [atletas]. repeat split.
  - rewrite distinct_pks_map; assumption.
  - unfold pks_below_seq in *. cbn [atletas atletas_pk_seq].
    apply forallb_forall. intros y Hy. apply in_map_iff in Hy.
    destruct Hy as (r & <- & Hr). rewrite (Hpk_f r Hr).
    exact (proj1 (forallb_forall _ _) Hseq r Hr).
  - rewrite distinct_ids_is in *. rewrite distinct_map; [assumption|].
    intros r Hr. destruct (AtletaModel.has_pk k r) eqn:Hkr; [|reflexivity].
    rewrite (Hsame r Hr Hkr). exact Hid.
  - rewrite distinct_cpfs_is in *.
    apply (distinct_replace _ _ _ String.eqb_eq); auto.
    intros r r' Hr Hr' Hkr Hkr'.
    rewrite (Hsame r Hr Hkr), (Hsame r' Hr' Hkr'). reflexivity.
  - unfold references_valid in *. cbn [atletas].
    apply forallb_forall. intros y Hy. apply in_map_iff in Hy.
    destruct Hy as (r & <- & Hr).
    pose proof (proj1 (forallb_forall _ _) Hrefs r Hr) as Hvalid.
    destruct (AtletaModel.has_pk k r) eqn:Hkr; [|exact Hvalid].
    rewrite (Hsame r Hr Hkr) in Hvalid.
    unfold references_exist, categoria_of, centro_treinamento_of in *.
    cbn [categorias centros_treinamento]. rewrite Hcat, Hct. exact Hvalid.
Qed.

(** *** What a handler can leave in the database *)

Lemma post_database_after (env : Env) (atleta_in : AtletaIn.t)
      (db : Database) :
  database_after (post env atleta_in) db = db
  \/ exists atleta_model,
      AtletaModel.pk_id atleta_model = None
      /\ AtletaModel.id atleta_model = uuid4 env
      /\ insert_row db atleta_model
         = Return (database_after (post env atleta_in) db).
Proof.
  unfold database_after.
  destruct (has_categoria db (CategoriaIn.nome (AtletaIn.categoria atleta_in)))
    eqn:Hc.
  2:{ left. now rewrite (post_category_missing env atleta_in db Hc). }
  destruct (has_centro_treinamento db
              (CentroTreinamentoAtleta.nome
                 (AtletaIn.centro_treinamento atleta_in))) eqn:Hct.
  2:{ left. now rewrite (post_centre_missing env atleta_in db Hc Hct). }
  destruct (post_references_found env atleta_in db Hc Hct)
    as (c & ct & _ & _ & _ & _ & Hrun).
  rewrite Hrun. unfold try_except. rewrite post_try_run. cbv zeta.
  destruct (commit_fault env); [left; reflexivity|].
  destruct (insert_row db _) as [db'|e] eqn:Hins.
  - right. eexists. split; [|split; [|exact Hins]]; reflexivity.
  - left. destruct e; reflexivity.
Qed.

Lemma delete_database_after (env : Env) (id : UUID) (db : Database) :
  database_after (delete env id) db = db
  \/ exists atleta,
      In atleta (atletas db)
      /\ AtletaModel.id atleta = id
      /\ delete_row db atleta = Return (database_after (delete env id) db).
Proof.
  unfold database_after. rewrite delete_run. cbv zeta.
  destruct (scalars_first _) as [atleta|] eqn:Hfirst; [|left; reflexivity].
  destruct (commit_fault env); [left; reflexivity|].
  destruct (delete_row db atleta) eqn:Hdel; [|left; reflexivity].
  right. exists atleta. destruct (first_filter_in _ _ _ Hfirst) as [Hin Hid].
  apply N.eqb_eq in Hid. auto.
Qed.

Lemma patch_database_after (env : Env) (id : UUID) (atleta_up : AtletaUpdate.t)
      (db : Database) :
  distinct_pks (atletas db) = true ->
  database_after (patch env id atleta_up) db = db
  \/ exists atleta,
      In atleta (atletas db)
      /\ AtletaModel.id atleta = id
      /\ update_row db (sparse_patch atleta_up atleta)
         = Return (database_after (patch env id atleta_up) db).
Proof.
  intros Hpks. unfold database_after, serve, patch, bind, execute.
  cbn [open_session database]. rewrite select_by_id_run.
  destruct (scalars_first _) as [atleta|] eqn:Hfirst; [|left; reflexivity].
  destruct (first_filter_in _ _ _ Hfirst) as [Hin Hid].
  apply N.eqb_eq in Hid.
  destruct (distinct_pks_has_pk _ _ Hpks Hin) as (k & Hk).
  rewrite (for_items_run _ _ _ k Hk) by (cbn; tauto).
  rewrite setattr_loop_is_sparse_patch.
  unfold commit, flush, record, refresh, open_session, ret.
  cbn [database new dirty deleted calls write_all app].
  destruct (commit_fault env); [left; reflexivity|].
  destruct (model_dump_exclude_unset atleta_up) as [|kv items].
  - left. cbn [write_all database]. unfold record.
    destruct (AtletaModel.pk_id (sparse_patch atleta_up atleta));
      [destruct (find _ _)|]; reflexivity.
  - cbn [write_all].
    destruct (update_row db (sparse_patch atleta_up atleta)) as [db'|e]
      eqn:Hup; [|left; reflexivity].
    right. exists atleta. split; [exact Hin|]. split; [exact Hid|].
    rewrite Hup.
    cbn [database]. unfold record.
    destruct (AtletaModel.pk_id (sparse_patch atleta_up atleta));
      [destruct (find _ _)|]; reflexivity.
Qed.

(** X17: the handlers keep the invariants of the data model: distinct primary
    keys drawn from the sequence, distinct identifiers, distinct [cpf]s and
    valid references.  [post] needs the generated identifier to be new. *)
Theorem handlers_keep_well_formed (env : Env) (db : Database) :
  well_formed db = true ->
  (forall atleta_in,
      id_registered db (uuid4 env) = false ->
      well_formed (database_after (post env atleta_in) db) = true)
  /\ (forall id atleta_up,
         well_formed (database_after (patch env id atleta_up) db) = true)
  /\ (forall id, well_formed (database_after (delete env id) db) = true)
  /\ (forall limit offset, database_after (query_all limit offset) db = db)
  /\ (forall nome cpf limit offset,
         database_after (query_by_name_or_cpf nome cpf limit offset) db = db)
  /\ (forall id, database_after (query_by_id id) db = db).
Proof.
  intros Hwf. repeat split.
  - intros atleta_in Hnew.
    destruct (post_database_after env atleta_in db)
      as [->|(m & Hpk & Hid & Hins)]; [exact Hwf|].
    apply (insert_row_well_formed db _ m); auto. now rewrite Hid.
  - intros id atleta_up.
    assert (Hpks : distinct_pks (atletas db) = true)
      by (apply well_formed_parts in Hwf; tauto).
    destruct (patch_database_after env id atleta_up db Hpks)
      as [->|(atleta & Hin & _ & Hup)]; [exact Hwf|].
    apply (update_row_well_formed db _ (sparse_patch atleta_up atleta) atleta
             Hwf Hin); auto.
  - intros id.
    destruct (delete_database_after env id db)
      as [->|(atleta & _ & _ & Hdel)]; [exact Hwf|].
    exact (delete_row_well_formed db _ atleta Hwf Hdel).
  - intros limit offset. unfold database_after. rewrite query_all_run.
    cbv zeta. destruct (run_select db _) as [rows|]; [|reflexivity].
    destruct (atleta_dicts_of db rows); reflexivity.
  - intros nome cpf limit offset. unfold database_after.
    rewrite query_by_name_or_cpf_run. cbv zeta.
    destruct (run_select db _) as [rows|]; [|reflexivity].
    destruct (atleta_dicts_of db rows) as [[|d ds]|]; reflexivity.
  - intros id. unfold database_after. rewrite query_by_id_run. cbv zeta.
    destruct (scalars_first _); reflexivity.
Qed.

Lemma handlers_keep_well_formed_witness :
  well_formed
    (database_after (post Sample.env (Sample.atleta_in "333" "RX" "Box1"))
                    Sample.db) = true
  /\ well_formed (database_after (delete Sample.env 6%N) Sample.db) = true.
Proof.
  destruct (handlers_keep_well_formed Sample.env Sample.db eq_refl)
    as (Hpost & _ & Hdelete & _).
  split; [apply Hpost; reflexivity | apply Hdelete].
Defined.

(** ** Further properties of the handlers *)

(** *** Reading one athlete *)

Lemma first_by_id_split (rows : list AtletaModel.t) (id : UUID) :
  existsb (fun r => N.eqb (AtletaModel.id r) id) rows = true ->
  exists atleta before after,
    rows = before ++ atleta :: after
    /\ AtletaModel.id atleta = id
    /\ (forall r, In r before -> AtletaModel.id r <> id)
    /\ scalars_first (filter (fun a => N.eqb (AtletaModel.id a) id) rows)
       = Some atleta.
Proof.
  induction rows as [|x rows IH]; simpl; [discriminate|]. intros Hreg.
  destruct (N.eqb_spec (AtletaModel.id x) id) as [Hx|Hx].
  - exists x, [], rows. simpl. repeat split; auto; try (intros r []).
  - simpl in Hreg. destruct (IH Hreg) as (a & b & c & -> & Ha & Hb & Hf).
    exists a, (x :: b), c. simpl. repeat split; auto.
    intros r [<-|Hr]; auto.
Qed.

(** X1: [query_by_id] returns (status 200) a stored row whose [id] is the
    requested one whenever such a row exists, the first of them in the
    table's order, and raises the 404 error naming the [id] otherwise; a
    returned row of a table with valid references is answered as an
    [AtletaOut] with that [id]. *)
Theorem query_by_id_found_or_404 (db : Database) (id : UUID) :
  (id_registered db id = true ->
   exists atleta before after,
     outcome_of (query_by_id id) db = Return atleta
     /\ response_status HTTP_200_OK (outcome_of (query_by_id id) db) = 200
     /\ atletas db = before ++ atleta :: after
     /\ AtletaModel.id atleta = id
     /\ (forall r, In r before -> AtletaModel.id r <> id)
     /\ (references_valid db = true ->
         exists out, response_AtletaOut db atleta = Return out
                     /\ AtletaOut.id out = id))
  /\
  (id_registered db id = false ->
   outcome_of (query_by_id id) db
   = Raise (HTTPException 404
              (fstring ["Atleta não encontrado com o ID: ";
                        str_uuid id]%string))).
Proof.
  split.
  - intros Hreg. unfold outcome_of. rewrite query_by_id_run. cbv zeta.
    pose proof (first_by_id_split _ _ Hreg) as Hsplit.
    destruct Hsplit as (atleta & before & after & Heq & Hid & Hbefore & Hfirst).
    exists atleta, before, after. rewrite Hfirst.
    repeat split; try assumption.
    intros Hvalid.
    assert (Hin : In atleta (atletas db))
      by (rewrite Heq; apply in_or_app; right; now left).
    pose proof (proj1 (forallb_forall _ _) Hvalid atleta Hin) as Hrefs.
    destruct (response_of_valid_row db atleta Hrefs) as (c & ct & _ & _ & ->).
    eexists. split; [reflexivity|exact Hid].
  - intros Hreg. unfold outcome_of. rewrite query_by_id_run. cbv zeta.
    rewrite (first_filter_none _ _ Hreg). reflexivity.
Qed.

Lemma query_by_id_found_or_404_witness :
  (exists atleta,
      outcome_of (query_by_id 6%N) Sample.db = Return atleta
      /\ AtletaModel.id atleta = 6%N)
  /\ response_status HTTP_200_OK (outcome_of (query_by_id 9%N) Sample.db)
     = 404.
Proof.
  destruct (query_by_id_found_or_404 Sample.db 6%N) as [Hfound _].
  destruct (query_by_id_found_or_404 Sample.db 9%N) as [_ Hnone].
  split.
  - destruct (Hfound eq_refl) as (a & _ & _ & Hout & _ & _ & Hid & _).
    exists a. split; assumption.
  - rewrite (Hnone eq_refl). reflexivity.
Defined.

(** X2: the three reading handlers make one call on the session, the
    [execute] of their select, whatever the parameters, the store and the
    outcome: they add, delete, commit and refresh nothing, and the database
    is the one they were given. *)
Theorem reading_handlers_only_select (db : Database) :
  (forall limit offset,
      calls_of (query_all limit offset) db
      = [Execute (SelectAtleta
                    (offset_ (limit_ select_AtletaModel limit) offset))]
      /\ database_after (query_all limit offset) db = db)
  /\ (forall nome cpf limit offset,
         calls_of (query_by_name_or_cpf nome cpf limit offset) db
         = [Execute (SelectAtleta (search_query nome cpf limit offset))]
         /\ database_after (query_by_name_or_cpf nome cpf limit offset) db
            = db)
  /\ (forall id,
         calls_of (query_by_id id) db
         = [Execute (SelectAtleta (filter_ select_AtletaModel (IdEq id)))]
         /\ database_after (query_by_id id) db = db).
Proof.
  repeat split; unfold calls_of, database_after.
  - rewrite query_all_run. cbv zeta.
    destruct (run_select db _) as [rows|]; [|reflexivity].
    destruct (atleta_dicts_of db rows); reflexivity.
  - rewrite query_all_run. cbv zeta.
    destruct (run_select db _) as [rows|]; [|reflexivity].
    destruct (atleta_dicts_of db rows); reflexivity.
  - rewrite query_by_name_or_cpf_run. cbv zeta.
    destruct (run_select db _) as [rows|]; [|reflexivity].
    destruct (atleta_dicts_of db rows) as [[|d ds]|]; reflexivity.
  - rewrite query_by_name_or_cpf_run. cbv zeta.
    destruct (run_select db _) as [rows|]; [|reflexivity].
    destruct (atleta_dicts_of db rows) as [[|d ds]|]; reflexivity.
  - rewrite query_by_id_run. cbv zeta. destruct (scalars_first _); reflexivity.
  - rewrite query_by_id_run. cbv zeta. destruct (scalars_first _); reflexivity.
Qed.

(** *** Search and listing *)

(** X3: a search whose two parameters are absent or empty is the listing of
    the same page, except on the empty page: it answers what [query_all]
    answers, and the 404 error where [query_all] returns the empty list. *)
Theorem search_without_filter_is_listing
        (db : Database) (nome cpf : option string) (limit offset : Z) :
  truthy nome = false -> truthy cpf = false ->
  outcome_of (query_by_name_or_cpf nome cpf limit offset) db
  = match outcome_of (query_all limit offset) db with
    | Return [] =>
        Raise (HTTPException 404
                 "Nenhum atleta encontrado com o critério fornecido.")
    | answer => answer
    end.
Proof.
  intros Hnome Hcpf.
  assert (Hq : search_query nome cpf limit offset
               = offset_ (limit_ select_AtletaModel limit) offset).
  { unfold search_query, search_filters.
    destruct nome as [n|], cpf as [c|]; try rewrite Hnome; try rewrite Hcpf;
      reflexivity. }
  unfold outcome_of. rewrite query_by_name_or_cpf_run, query_all_run.
  cbv zeta. rewrite Hq.
  destruct (run_select db _) as [rows|]; [|reflexivity].
  destruct (atleta_dicts_of db rows) as [[|d ds]|]; reflexivity.
Qed.

Lemma search_without_filter_is_listing_witness :
  outcome_of (query_by_name_or_cpf (Some ""%string) None 1 1) Sample.db
  = Return [atleta_dict.mk "Bia" "Box1" "Scale"]
  /\ response_status HTTP_200_OK
       (outcome_of (query_by_name_or_cpf None None 10 2) Sample.db) = 404.
Proof.
  split.
  - rewrite (search_without_filter_is_listing
               Sample.db (Some ""%string) None 1 1 eq_refl eq_refl).
    reflexivity.
  - rewrite (search_without_filter_is_listing
               Sample.db None None 10 2 eq_refl eq_refl).
    reflexivity.
Defined.

Lemma search_filters_rows (nome cpf : option string)
      (rows : list AtletaModel.t) :
  rows_where (whereclause (search_filters nome cpf)) rows
  = filter (fun a => passes nome (AtletaModel.nome a)
                     && passes cpf (AtletaModel.cpf a)) rows.
Proof.
  unfold rows_where. apply filter_ext. intros a.
  unfold search_filters, passes, filter_, select_AtletaModel.
  destruct nome as [n|], cpf as [c|];
    try destruct (truthy (Some n)); try destruct (truthy (Some c));
    cbn; rewrite ?andb_true_r; reflexivity.
Qed.

(** X4: for bounds that are not negative, the search works on the rows that
    pass both parameters (an absent or empty parameter lets every row pass),
    in the table's order, skips [offset] of them and keeps at most [limit]:
    it raises the 404 error when that page is empty and otherwise, in a table
    with valid references, returns one dictionary per row of the page, in
    order. *)
Theorem search_page_of_matches
        (db : Database) (nome cpf : option string) (limit offset : Z) :
  0 <= limit -> 0 <= offset ->
  let page :=
    firstn (Z.to_nat limit)
      (skipn (Z.to_nat offset)
         (filter (fun a => passes nome (AtletaModel.nome a)
                           && passes cpf (AtletaModel.cpf a))
                 (atletas db))) in
  (page = [] ->
   outcome_of (query_by_name_or_cpf nome cpf limit offset) db
   = Raise (HTTPException 404
              "Nenhum atleta encontrado com o critério fornecido."))
  /\
  (page <> [] -> references_valid db = true ->
   exists dicts,
     outcome_of (query_by_name_or_cpf nome cpf limit offset) db = Return dicts
     /\ Forall2 (is_summary_of db) page dicts
     /\ Z.of_nat (length dicts) <= limit).
Proof.
  intros Hl Ho page.
  assert (Hrun : run_select db (search_query nome cpf limit offset)
                 = Return page).
  { unfold search_query. rewrite run_select_page by assumption.
    now rewrite search_filters_rows. }
  unfold outcome_of. rewrite query_by_name_or_cpf_run. cbv zeta.
  rewrite Hrun. split.
  - intros ->. reflexivity.
  - intros Hne Hvalid.
    destruct (atleta_dicts_of_valid db page) as (dicts & Hd).
    { unfold page. apply forallb_forall. intros a Ha.
      apply In_firstn, In_skipn, filter_In in Ha.
      exact (proj1 (forallb_forall _ _) Hvalid a (proj1 Ha)). }
    pose proof (atleta_dicts_of_summary _ _ _ Hd) as Hsum.
    rewrite Hd. exists dicts.
    destruct dicts as [|d ds].
    { inversion Hsum as [Hp|]. now elim Hne. }
    repeat split; [exact Hsum|].
    rewrite <- (Forall2_length Hsum).
    pose proof (firstn_length_le (Z.to_nat limit)
                  (skipn (Z.to_nat offset)
                     (filter (fun a => passes nome (AtletaModel.nome a)
                                       && passes cpf (AtletaModel.cpf a))
                             (atletas db)))) as Hlen.
    fold page in Hlen. lia.
Qed.

Lemma search_page_of_matches_witness :
  outcome_of (query_by_name_or_cpf (Some "Bia"%string) (Some "222"%string)
                                   10 0) Sample.db
  = Return [atleta_dict.mk "Bia" "Box1" "Scale"]
  /\ response_status HTTP_200_OK
       (outcome_of (query_by_name_or_cpf (Some "Bia"%string)
                                         (Some "111"%string) 10 0) Sample.db)
     = 404.
Proof.
  destruct (search_page_of_matches Sample.db (Some "Bia"%string)
              (Some "222"%string) 10 0 ltac:(lia) ltac:(lia)) as [_ Hsome].
  destruct (search_page_of_matches Sample.db (Some "Bia"%string)
              (Some "111"%string) 10 0 ltac:(lia) ltac:(lia)) as [Hnone _].
  split.
  - destruct (Hsome ltac:(discriminate) eq_refl) as (dicts & Hout & _).
    rewrite Hout. vm_compute in Hout. injection Hout as <-. reflexivity.
  - rewrite (Hnone eq_refl). reflexivity.
Defined.

(** *** Consecutive pages *)

Lemma firstn_plus {A} (n m : nat) (l : list A) :
  firstn (n + m) l = firstn n l ++ firstn m (skipn n l).
Proof.
  revert l. induction n as [|n IH]; intros [|x l]; simpl;
    rewrite ?firstn_nil; try reflexivity.
  now rewrite IH.
Qed.

Lemma atleta_dicts_of_app (db : Database) (l1 l2 : list AtletaModel.t) :
  atleta_dicts_of db (l1 ++ l2)
  = match atleta_dicts_of db l1, atleta_dicts_of db l2 with
    | Some d1, Some d2 => Some (d1 ++ d2)
    | _, _ => None
    end.
Proof.
  induction l1 as [|a l1 IH]; simpl.
  - destruct (atleta_dicts_of db l2); reflexivity.
  - rewrite IH.
    destruct (atleta_dict_of db a), (atleta_dicts_of db l1),
      (atleta_dicts_of db l2); reflexivity.
Qed.

(** X5: pages of the listing fit together.  For bounds that are not
    negative, when the page of [limit1] rows at [offset] and the page of
    [limit2] rows at [offset + limit1] are both returned, the page of
    [limit1 + limit2] rows at [offset] is returned too and is the first list
    followed by the second: no row is shown twice and none is skipped. *)
Theorem query_all_pages_concatenate
        (db : Database) (limit1 limit2 offset : Z)
        (dicts1 dicts2 : list atleta_dict.t) :
  0 <= limit1 -> 0 <= limit2 -> 0 <= offset ->
  outcome_of (query_all limit1 offset) db = Return dicts1 ->
  outcome_of (query_all limit2 (offset + limit1)) db = Return dicts2 ->
  outcome_of (query_all (limit1 + limit2) offset) db
  = Return (dicts1 ++ dicts2).
Proof.
  intros H1 H2 Ho. unfold outcome_of. rewrite !query_all_run. cbv zeta.
  rewrite !run_select_page by lia.
  cbn [whereclause select_AtletaModel]. rewrite rows_where_nil.
  rewrite !Z2Nat.inj_add by lia. rewrite firstn_plus.
  rewrite skipn_skipn, atleta_dicts_of_app.
  rewrite (Nat.add_comm (Z.to_nat limit1) (Z.to_nat offset)).
  destruct (atleta_dicts_of db (firstn (Z.to_nat limit1) _)) as [d1|];
    [|discriminate].
  destruct (atleta_dicts_of db (firstn (Z.to_nat limit2) _)) as [d2|];
    [|discriminate].
  cbn [fst]. intros E1 E2. injection E1 as <-. injection E2 as <-.
  reflexivity.
Qed.

Lemma query_all_pages_concatenate_witness :
  outcome_of (query_all 2 0) Sample.db
  = Return [atleta_dict.mk "Ana" "Box1" "RX";
            atleta_dict.mk "Bia" "Box1" "Scale"].
Proof.
  exact (query_all_pages_concatenate Sample.db 1 1 0
           [atleta_dict.mk "Ana" "Box1" "RX"]
           [atleta_dict.mk "Bia" "Box1" "Scale"]
           ltac:(lia) ltac:(lia) ltac:(lia) eq_refl eq_refl).
Defined.

(** *** Search by cpf *)

Lemma run_select_length (db : Database) (q : Select) rows :
  run_select db q = Return rows ->
  (length rows <= length (rows_where (whereclause q) (atletas db)))%nat.
Proof.
  unfold run_select, apply_offset, apply_limit. intros H.
  set (all := rows_where (whereclause q) (atletas db)) in *.
  assert (Hskip : forall n, (length (skipn n all) <= length all)%nat)
    by (intros n; rewrite length_skipn; lia).
  assert (Hfirst : forall n (l : list AtletaModel.t),
             (length (firstn n l) <= length l)%nat)
    by (intros n l; rewrite length_firstn; lia).
  destruct (offset_clause q) as [o|], (limit_clause q) as [l|],
    (negative_bounds db);
    repeat match type of H with
           | context [if ?c then _ else _] => destruct c
           end;
    try discriminate; injection H as <-;
    repeat first [apply Nat.le_refl | apply Hskip
                 | eapply Nat.le_trans; [apply Hfirst|]].
Qed.

Lemma filter_length_le {A} (p q : A -> bool) (l : list A) :
  (forall x, p x = true -> q x = true) ->
  (length (filter p l) <= length (filter q l))%nat.
Proof.
  intros Hpq. induction l as [|x l IH]; simpl; [lia|].
  destruct (p x) eqn:Hp.
  - rewrite (Hpq x Hp). simpl. lia.
  - destruct (q x); simpl; lia.
Qed.

Lemma distinct_cpfs_one (rows : list AtletaModel.t) (cpf : string) :
  distinct_cpfs rows = true ->
  (length (filter (fun r => String.eqb (AtletaModel.cpf r) cpf) rows) <= 1)%nat.
Proof.
  induction rows as [|x rows IH]; simpl; [lia|].
  intros H. apply andb_prop in H. destruct H as [Hx Hrows].
  destruct (String.eqb_spec (AtletaModel.cpf x) cpf) as [Hc|Hc]; [|auto].
  apply negb_true_iff in Hx. rewrite Hc in Hx.
  rewrite (filter_none _ _ Hx). simpl. lia.
Qed.

(** X6: in a table where no two rows share a [cpf], a search with a cpf that
    is not empty never returns more than one dictionary: when it returns, it
    returns exactly one, whatever the name and the page asked for. *)
Theorem search_by_cpf_returns_one
        (db : Database) (nome : option string) (cpf : string)
        (limit offset : Z) (dicts : list atleta_dict.t) :
  distinct_cpfs (atletas db) = true ->
  cpf <> ""%string ->
  outcome_of (query_by_name_or_cpf nome (Some cpf) limit offset) db
  = Return dicts ->
  exists d, dicts = [d].
Proof.
  intros Hcpfs Hcpf. unfold outcome_of. rewrite query_by_name_or_cpf_run.
  cbv zeta.
  destruct (run_select db _) as [rows|] eqn:Hrun; [|discriminate].
  destruct (atleta_dicts_of db rows) as [ds|] eqn:Hds; [|discriminate].
  intros Hout.
  assert (ds = dicts /\ ds <> []) as [<- Hne].
  { destruct ds; [discriminate|]. injection Hout as <-.
    split; [reflexivity|discriminate]. }
  pose proof (Forall2_length (atleta_dicts_of_summary _ _ _ Hds)) as Hlen.
  pose proof (run_select_length _ _ _ Hrun) as Hrows.
  change (whereclause _) with (whereclause (search_filters nome (Some cpf)))
    in Hrows.
  rewrite search_filters_rows in Hrows.
  pose proof (filter_length_le
                (fun a => passes nome (AtletaModel.nome a)
                          && passes (Some cpf) (AtletaModel.cpf a))
                (fun r => String.eqb (AtletaModel.cpf r) cpf)
                (atletas db)) as Hle.
  assert (Himp : forall x,
             passes nome (AtletaModel.nome x)
             && passes (Some cpf) (AtletaModel.cpf x) = true ->
             String.eqb (AtletaModel.cpf x) cpf = true).
  { intros x Hx. apply andb_prop in Hx. destruct Hx as [_ Hx].
    unfold passes, truthy in Hx.
    rewrite (proj2 (String.eqb_neq _ _) Hcpf) in Hx. exact Hx. }
  specialize (Hle Himp).
  pose proof (distinct_cpfs_one _ cpf Hcpfs) as Hone.
  destruct ds as [|d [|d' ds]]; [now elim Hne|eauto|].
  simpl in Hlen. lia.
Qed.

Lemma search_by_cpf_returns_one_witness :
  exists d,
    outcome_of (query_by_name_or_cpf None (Some "222"%string) 10 0) Sample.db
    = Return [d].
Proof.
  destruct (search_by_cpf_returns_one Sample.db None "222" 10 0
              [atleta_dict.mk "Bia" "Box1" "Scale"]
              eq_refl ltac:(discriminate) eq_refl) as (d & Hd).
  exists d. rewrite <- Hd. reflexivity.
Defined.

(** *** Creating *)

(** [post] with both references found, in one equation. *)
Lemma post_found_run (env : Env) (atleta_in : AtletaIn.t) (db : Database) :
  has_categoria db (CategoriaIn.nome (AtletaIn.categoria atleta_in)) = true ->
  has_centro_treinamento db
    (CentroTreinamentoAtleta.nome (AtletaIn.centro_treinamento atleta_in))
  = true ->
  exists categoria centro_treinamento,
    let atleta_model :=
      new_AtletaModel (new_AtletaOut env atleta_in)
                      categoria centro_treinamento in
    let log :=
      [Execute (SelectCategoria
                  (CategoriaIn.nome (AtletaIn.categoria atleta_in)));
       Execute (SelectCentroTreinamento
                  (CentroTreinamentoAtleta.nome
                     (AtletaIn.centro_treinamento atleta_in)));
       Add atleta_model; Commit] in
    serve (post env atleta_in) db
    = if commit_fault env then
        (Raise insert_failed, mkSession db [] [] [] log)
      else if cpf_registered db (AtletaIn.cpf atleta_in) then
        (Raise (cpf_already_registered (AtletaIn.cpf atleta_in)),
         mkSession db [] [] [] log)
      else
        (Return (new_AtletaOut env atleta_in),
         mkSession
           (set_atletas db
              (atletas db
               ++ [AtletaModel.with_pk (atletas_pk_seq db) atleta_model])
              (atletas_pk_seq db + 1))
           [] [] [] log).
Proof.
  intros Hc Hct.
  destruct (post_references_found env atleta_in db Hc Hct)
    as (c & ct & _ & _ & Hinc & Hinct & Hrun).
  exists c, ct. cbv zeta. rewrite Hrun. unfold try_except.
  rewrite post_try_run. cbv zeta.
  rewrite (insert_looked_up env atleta_in db c ct Hinc Hinct).
  destruct (commit_fault env); [reflexivity|].
  destruct (cpf_registered db (AtletaIn.cpf atleta_in)); reflexivity.
Qed.

(** X7: the status of [post] is decided in this order: 400 when the
    category or the training centre is missing, otherwise 500 when the store
    fails at commit, otherwise 303 when the [cpf] is already stored,
    otherwise 201.  The table gains exactly one row, at its end, when the
    status is 201, and is as it was in every other case. *)
Theorem post_status_and_effect
        (env : Env) (atleta_in : AtletaIn.t) (db : Database) :
  let status :=
    response_status HTTP_201_CREATED (outcome_of (post env atleta_in) db) in
  status
  = (if negb (has_categoria db
                (CategoriaIn.nome (AtletaIn.categoria atleta_in)))
        || negb (has_centro_treinamento db
                   (CentroTreinamentoAtleta.nome
                      (AtletaIn.centro_treinamento atleta_in)))
     then 400
     else if commit_fault env then 500
     else if cpf_registered db (AtletaIn.cpf atleta_in) then 303
     else 201)
  /\ exists added,
      atletas (database_after (post env atleta_in) db) = atletas db ++ added
      /\ length added = (if (status =? 201)%Z then 1%nat else 0%nat)
      /\ categorias (database_after (post env atleta_in) db) = categorias db
      /\ centros_treinamento (database_after (post env atleta_in) db)
         = centros_treinamento db.
Proof.
  cbv zeta. unfold outcome_of, database_after.
  destruct (has_categoria db _) eqn:Hc.
  2:{ rewrite (post_category_missing env atleta_in db Hc).
      split; [reflexivity|]. exists []. rewrite app_nil_r. repeat split. }
  destruct (has_centro_treinamento db _) eqn:Hct.
  2:{ rewrite (post_centre_missing env atleta_in db Hc Hct).
      split; [reflexivity|]. exists []. rewrite app_nil_r. repeat split. }
  destruct (post_found_run env atleta_in db Hc Hct) as (c & ct & Hrun).
  cbv zeta in Hrun. rewrite Hrun. cbn [negb orb].
  destruct (commit_fault env).
  { split; [reflexivity|]. exists []. rewrite app_nil_r. repeat split. }
  destruct (cpf_registered db (AtletaIn.cpf atleta_in)).
  { split; [reflexivity|]. exists []. rewrite app_nil_r. repeat split. }
  split; [reflexivity|]. eexists. repeat split.
Qed.

(** X8: create, then fetch.  After a [post] that found both references,
    with a free [cpf], no failure of the store and a generated identifier
    that no stored athlete has, [query_by_id] on the identifier returned by
    [post] returns the row just stored, with the fields of the answer of
    [post]. *)
Theorem post_then_query_by_id
        (env : Env) (atleta_in : AtletaIn.t) (db : Database) :
  has_categoria db (CategoriaIn.nome (AtletaIn.categoria atleta_in)) = true ->
  has_centro_treinamento db
    (CentroTreinamentoAtleta.nome (AtletaIn.centro_treinamento atleta_in))
  = true ->
  commit_fault env = false ->
  cpf_registered db (AtletaIn.cpf atleta_in) = false ->
  id_registered db (uuid4 env) = false ->
  exists atleta_out atleta,
    outcome_of (post env atleta_in) db = Return atleta_out
    /\ outcome_of (query_by_id (AtletaOut.id atleta_out))
                  (database_after (post env atleta_in) db) = Return atleta
    /\ AtletaModel.pk_id atleta = Some (atletas_pk_seq db)
    /\ AtletaModel.id atleta = AtletaOut.id atleta_out
    /\ AtletaModel.created_at atleta = AtletaOut.created_at atleta_out
    /\ AtletaModel.nome atleta = AtletaIn.nome atleta_in
    /\ AtletaModel.cpf atleta = AtletaIn.cpf atleta_in
    /\ AtletaModel.peso atleta = AtletaIn.peso atleta_in
    /\ AtletaModel.altura atleta = AtletaIn.altura atleta_in
    /\ AtletaModel.sexo atleta = AtletaIn.sexo atleta_in.
Proof.
  intros Hc Hct Hfault Hcpf Hid.
  destruct (post_found_run env atleta_in db Hc Hct) as (c & ct & Hrun).
  cbv zeta in Hrun. rewrite Hfault, Hcpf in Hrun.
  unfold outcome_of, database_after. rewrite Hrun. cbn [fst snd database].
  eexists. eexists. split; [reflexivity|].
  change (AtletaOut.id (new_AtletaOut env atleta_in)) with (uuid4 env).
  rewrite query_by_id_run. cbv zeta. unfold set_atletas. cbn [atletas].
  rewrite filter_app, (filter_none _ _ Hid).
  cbn [filter app AtletaModel.with_pk new_AtletaModel AtletaModel.id
       AtletaOut.id new_AtletaOut].
  rewrite N.eqb_refl. cbn [scalars_first hd_error fst]. repeat split.
Qed.

Lemma post_then_query_by_id_witness :
  exists atleta,
    outcome_of (query_by_id 255%N)
               (database_after
                  (post Sample.env (Sample.atleta_in "333" "RX" "Box1"))
                  Sample.db) = Return atleta
    /\ AtletaModel.nome atleta = "Caio"%string
    /\ AtletaModel.cpf atleta = "333"%string.
Proof.
  destruct (post_then_query_by_id
              Sample.env (Sample.atleta_in "333" "RX" "Box1") Sample.db
              eq_refl eq_refl eq_refl eq_refl eq_refl)
    as (out & a & Hout & Hq & _ & _ & _ & Hnome & Hcpf & _).
  vm_compute in Hout. injection Hout as <-.
  exists a. split; [exact Hq|]. split; assumption.
Defined.

(** X9: create twice with one [cpf].  After a [post] that stored an athlete,
    a second [post] with the same [cpf] (whatever its other fields, its
    references being found and the store not failing) raises the 303 error
    and leaves the database as the first [post] left it, with exactly one row
    of that [cpf]. *)
Theorem post_twice_same_cpf
        (env env2 : Env) (atleta_in atleta_in2 : AtletaIn.t) (db : Database) :
  has_categoria db (CategoriaIn.nome (AtletaIn.categoria atleta_in)) = true ->
  has_centro_treinamento db
    (CentroTreinamentoAtleta.nome (AtletaIn.centro_treinamento atleta_in))
  = true ->
  commit_fault env = false ->
  cpf_registered db (AtletaIn.cpf atleta_in) = false ->
  has_categoria db (CategoriaIn.nome (AtletaIn.categoria atleta_in2)) = true ->
  has_centro_treinamento db
    (CentroTreinamentoAtleta.nome (AtletaIn.centro_treinamento atleta_in2))
  = true ->
  commit_fault env2 = false ->
  AtletaIn.cpf atleta_in2 = AtletaIn.cpf atleta_in ->
  let db1 := database_after (post env atleta_in) db in
  response_status HTTP_201_CREATED (outcome_of (post env atleta_in) db) = 201
  /\ outcome_of (post env2 atleta_in2) db1
     = Raise (HTTPException 303
                (fstring ["Já existe um atleta cadastrado com o cpf: ";
                          AtletaIn.cpf atleta_in]%string))
  /\ database_after (post env2 atleta_in2) db1 = db1
  /\ length (filter (fun r => String.eqb (AtletaModel.cpf r)
                                         (AtletaIn.cpf atleta_in))
                    (atletas db1)) = 1%nat.
Proof.
  intros Hc Hct Hfault Hcpf Hc2 Hct2 Hfault2 Hsame db1.
  destruct (post_found_run env atleta_in db Hc Hct) as (c & ct & Hrun).
  cbv zeta in Hrun. rewrite Hfault, Hcpf in Hrun.
  assert (Hdb1 : db1 = set_atletas db
                         (atletas db
                          ++ [AtletaModel.with_pk (atletas_pk_seq db)
                                (new_AtletaModel (new_AtletaOut env atleta_in)
                                                 c ct)])
                         (atletas_pk_seq db + 1)).
  { unfold db1, database_after. now rewrite Hrun. }
  assert (Hreg : cpf_registered db1 (AtletaIn.cpf atleta_in2) = true).
  { rewrite Hdb1, Hsame. unfold cpf_registered, set_atletas. cbn [atletas].
    rewrite existsb_app. cbn. rewrite String.eqb_refl.
    now rewrite orb_true_r. }
  destruct (post_found_run env2 atleta_in2 db1) as (c2 & ct2 & Hrun2).
  { rewrite Hdb1. exact Hc2. }
  { rewrite Hdb1. exact Hct2. }
  cbv zeta in Hrun2. rewrite Hfault2, Hreg in Hrun2.
  unfold outcome_of, database_after. rewrite Hrun.
  fold (database_after (post env atleta_in) db). fold db1.
  rewrite Hrun2. cbn [fst snd database response_status].
  rewrite Hsame. repeat split.
  rewrite Hdb1. unfold set_atletas. cbn [atletas].
  rewrite filter_app, (filter_none _ _ Hcpf). cbn.
  now rewrite String.eqb_refl.
Qed.

Lemma post_twice_same_cpf_witness :
  let db1 :=
    database_after (post Sample.env (Sample.atleta_in "333" "RX" "Box1"))
                   Sample.db in
  response_status HTTP_201_CREATED
    (outcome_of (post Sample.env (Sample.atleta_in "333" "Scale" "Box1")) db1)
  = 303
  /\ length (filter (fun r => String.eqb (AtletaModel.cpf r) "333")
                    (atletas db1)) = 1%nat.
Proof.
  destruct (post_twice_same_cpf
              Sample.env Sample.env
              (Sample.atleta_in "333" "RX" "Box1")
              (Sample.atleta_in "333" "Scale" "Box1") Sample.db
              eq_refl eq_refl eq_refl eq_refl eq_refl eq_refl eq_refl eq_refl)
    as (_ & Hout & _ & Hone).
  split; [|exact Hone]. cbv zeta. rewrite Hout. reflexivity.
Defined.

(** *** Updating *)

(** [patch] on a stored [id], in one equation. *)
Lemma patch_existing_run (env : Env) (id : UUID) (atleta_up : AtletaUpdate.t)
      (db : Database) (atleta : AtletaModel.t) (k : Z) :
  scalars_first (filter (fun a => N.eqb (AtletaModel.id a) id) (atletas db))
  = Some atleta ->
  distinct_pks (atletas db) = true ->
  AtletaModel.pk_id atleta = Some k ->
  let atleta' := sparse_patch atleta_up atleta in
  let select :=
    Execute (SelectAtleta (filter_ select_AtletaModel (IdEq id))) in
  serve (patch env id atleta_up) db
  = if commit_fault env then
      (Raise DBAPIError, mkSession db [] [] [] [select; Commit])
    else
      match model_dump_exclude_unset atleta_up with
      | [] =>
          (Return atleta,
           mkSession db [] [] [] [select; Commit; Refresh atleta])
      | _ :: _ =>
          if cpf_held_by_other (AtletaModel.cpf atleta') atleta' (atletas db)
          then (Raise IntegrityError, mkSession db [] [] [] [select; Commit])
          else
            (Return atleta',
             mkSession
               (set_atletas db
                  (map (fun r => if AtletaModel.has_pk k r then atleta'
                                 else r) (atletas db))
                  (atletas_pk_seq db))
               [] [] [] [select; Commit; Refresh atleta'])
      end.
Proof.
  intros Hfirst Hpks Hk atleta' select.
  destruct (first_filter_in _ _ _ Hfirst) as [Hin _].
  assert (Hk' : AtletaModel.pk_id atleta' = Some k) by exact Hk.
  pose proof (has_pk_of _ _ Hk) as Hhas.
  pose proof (has_pk_of _ _ Hk') as Hhas'.
  assert (Hex : existsb (AtletaModel.has_pk k) (atletas db) = true)
    by (apply existsb_exists; eauto).
  unfold serve, patch, bind, execute.
  cbn [open_session database]. rewrite select_by_id_run, Hfirst.
  rewrite (for_items_run _ _ _ k Hk) by (cbn; tauto).
  rewrite setattr_loop_is_sparse_patch. fold atleta'.
  unfold commit, flush, refresh, record, open_session, ret.
  cbn [database new dirty deleted calls write_all app].
  destruct (commit_fault env); [reflexivity|].
  destruct (model_dump_exclude_unset atleta_up) as [|kv items] eqn:Hitems.
  - cbn [write_all database calls].
    assert (atleta' = atleta) as Heq
        by (apply no_item_no_change; exact Hitems).
    rewrite Heq, Hk, (distinct_pks_find _ _ _ Hpks Hin Hhas). reflexivity.
  - cbn [write_all]. unfold update_row. rewrite Hk', Hex.
    cbn [negb].
    destruct (cpf_held_by_other (AtletaModel.cpf atleta') atleta'
                                (atletas db)); [reflexivity|].
    cbn [database calls]. rewrite ?Hk', ?Hk.
    cbn [set_atletas atletas].
    rewrite (find_replaced _ _ _ Hex Hhas'). reflexivity.
Qed.

(** X10: [patch] on an [id] that no stored athlete has raises the 404 error
    naming the [id] after its look-up: no attribute is set, nothing is
    committed or refreshed, and the database is as it was, whatever the
    body. *)
Theorem patch_unknown_id (env : Env) (id : UUID) (atleta_up : AtletaUpdate.t)
        (db : Database) :
  id_registered db id = false ->
  serve (patch env id atleta_up) db
  = (Raise (HTTPException 404
              (fstring ["Atleta não encontrado com o ID: ";
                        str_uuid id]%string)),
     mkSession db [] [] []
       [Execute (SelectAtleta (filter_ select_AtletaModel (IdEq id)))]).
Proof.
  intros Hreg. unfold serve, patch, bind, execute.
  cbn [open_session database]. rewrite select_by_id_run.
  rewrite (first_filter_none _ _ Hreg). reflexivity.
Qed.

Lemma patch_unknown_id_witness :
  response_status HTTP_200_OK
    (outcome_of (patch Sample.env 9%N (Sample.only_peso 71%float)) Sample.db)
  = 404
  /\ database_after (patch Sample.env 9%N (Sample.only_peso 71%float))
                    Sample.db = Sample.db.
Proof.
  unfold outcome_of, database_after.
  rewrite (patch_unknown_id Sample.env 9%N (Sample.only_peso 71%float)
                            Sample.db eq_refl).
  split; reflexivity.
Defined.

(** X11: the status of [patch] on a stored [id], in a table with distinct
    primary keys.  The commit is attempted even for an empty body.  A failure
    of the store, or a body whose [cpf] is held by another row, is not
    handled: the exception leaves the handler (status 500, never 303) and the
    database is as it was.  Otherwise the status is 200. *)
Theorem patch_status_and_effect
        (env : Env) (id : UUID) (atleta_up : AtletaUpdate.t) (db : Database)
        (atleta : AtletaModel.t) :
  scalars_first (filter (fun a => N.eqb (AtletaModel.id a) id) (atletas db))
  = Some atleta ->
  distinct_pks (atletas db) = true ->
  let atleta' := sparse_patch atleta_up atleta in
  let refused :=
    commit_fault env
    || (match model_dump_exclude_unset atleta_up with
        | [] => false
        | _ :: _ => cpf_held_by_other (AtletaModel.cpf atleta') atleta'
                                      (atletas db)
        end) in
  response_status HTTP_200_OK (outcome_of (patch env id atleta_up) db)
  = (if refused then 500 else 200)
  /\ In Commit (calls_of (patch env id atleta_up) db)
  /\ (refused = true ->
      database_after (patch env id atleta_up) db = db
      /\ exists e, outcome_of (patch env id atleta_up) db = Raise e
                   /\ forall code detail, e <> HTTPException code detail)
  /\ (refused = false ->
      outcome_of (patch env id atleta_up) db = Return atleta').
Proof.
  intros Hfirst Hpks atleta' refused.
  destruct (first_filter_in _ _ _ Hfirst) as [Hin _].
  destruct (distinct_pks_has_pk _ _ Hpks Hin) as (k & Hk).
  pose proof (patch_existing_run env id atleta_up db atleta k
                Hfirst Hpks Hk) as Hrun.
  cbv zeta in Hrun. fold atleta' in Hrun.
  unfold outcome_of, database_after, calls_of, refused. rewrite Hrun.
  destruct (commit_fault env).
  { cbn. repeat split; auto; try discriminate.
    exists DBAPIError. split; [reflexivity|discriminate]. }
  destruct (model_dump_exclude_unset atleta_up) as [|kv items] eqn:Hitems.
  { cbn. repeat split; auto; try discriminate.
    intros _. f_equal. symmetry. now apply no_item_no_change. }
  destruct (cpf_held_by_other _ _ _).
  - cbn. repeat split; auto; try discriminate.
    exists IntegrityError. split; [reflexivity|discriminate].
  - cbn. repeat split; auto; discriminate.
Qed.

Lemma patch_status_and_effect_witness :
  response_status HTTP_200_OK
    (outcome_of (patch Sample.env 6%N (Sample.only_cpf "111")) Sample.db)
  = 500
  /\ response_status HTTP_200_OK
       (outcome_of (patch Sample.env 6%N (Sample.only_cpf "222")) Sample.db)
     = 200.
Proof.
  split.
  - exact (proj1 (patch_status_and_effect
                    Sample.env 6%N (Sample.only_cpf "111") Sample.db
                    Sample.bia eq_refl eq_refl)).
  - exact (proj1 (patch_status_and_effect
                    Sample.env 6%N (Sample.only_cpf "222") Sample.db
                    Sample.bia eq_refl eq_refl)).
Defined.

Lemma filter_map_commute {A} (p : A -> bool) (f : A -> A) (l : list A) :
  (forall x, In x l -> p (f x) = p x) ->
  filter p (map f l) = map f (filter p l).
Proof.
  induction l as [|x l IH]; simpl; [reflexivity|]. intros H.
  rewrite (H x) by auto. rewrite IH by auto.
  destruct (p x); reflexivity.
Qed.

(** Replacing the row of key [k] by a row with the same [id] keeps the
    [id] of every row. *)
Lemma replace_keeps_ids (rows : list AtletaModel.t)
      (atleta a' : AtletaModel.t) (k : Z) :
  distinct_pks rows = true -> In atleta rows ->
  AtletaModel.has_pk k atleta = true ->
  AtletaModel.id a' = AtletaModel.id atleta ->
  forall r, In r rows ->
    AtletaModel.id (if AtletaModel.has_pk k r then a' else r)
    = AtletaModel.id r.
Proof.
  intros Hpks Hin Hk Hid r Hr.
  destruct (AtletaModel.has_pk k r) eqn:Hkr; [|reflexivity].
  rewrite (distinct_pks_same _ _ _ _ Hpks Hin Hr Hk Hkr). exact Hid.
Qed.

Lemma sparse_patch_twice (atleta_up : AtletaUpdate.t) (a : AtletaModel.t) :
  sparse_patch atleta_up (sparse_patch atleta_up a) = sparse_patch atleta_up a.
Proof.
  destruct a, atleta_up as [[?|] [?|] [?|] [?|] [?|]]; reflexivity.
Qed.

Lemma cpf_held_after_replace (rows : list AtletaModel.t) (a' : AtletaModel.t)
      (k : Z) :
  AtletaModel.pk_id a' = Some k ->
  cpf_held_by_other (AtletaModel.cpf a') a'
    (map (fun r => if AtletaModel.has_pk k r then a' else r) rows)
  = cpf_held_by_other (AtletaModel.cpf a') a' rows.
Proof.
  intros Hk. unfold cpf_held_by_other. rewrite Hk.
  induction rows as [|x rows IH]; simpl; [reflexivity|].
  rewrite IH. f_equal.
  destruct (AtletaModel.has_pk k x) eqn:Hx; [|now rewrite Hx].
  rewrite (has_pk_of _ _ Hk). cbn. now rewrite !andb_false_r.
Qed.

Lemma replace_twice (rows : list AtletaModel.t) (a' : AtletaModel.t) (k : Z) :
  AtletaModel.has_pk k a' = true ->
  map (fun r => if AtletaModel.has_pk k r then a' else r)
      (map (fun r => if AtletaModel.has_pk k r then a' else r) rows)
  = map (fun r => if AtletaModel.has_pk k r then a' else r) rows.
Proof.
  intros Hk. rewrite map_map. apply map_ext. intros r.
  destruct (AtletaModel.has_pk k r) eqn:Hr; [now rewrite Hk|now rewrite Hr].
Qed.

Section PatchAccepted.
Variable env : Env.
Variable id : UUID.
Variable atleta_up : AtletaUpdate.t.
Variable db : Database.
Variable atleta : AtletaModel.t.

Hypothesis found :
  scalars_first (filter (fun a => N.eqb (AtletaModel.id a) id) (atletas db))
  = Some atleta.
Hypothesis keys : distinct_pks (atletas db) = true.
Hypothesis no_fault : commit_fault env = false.
Hypothesis cpf_free :
  cpf_held_by_other (AtletaModel.cpf (sparse_patch atleta_up atleta))
                    (sparse_patch atleta_up atleta) (atletas db) = false.

Let atleta' := sparse_patch atleta_up atleta.
Let db' := database_after (patch env id atleta_up) db.

(** The database after an accepted [patch]. *)
Lemma patch_accepted_database :
  exists k,
    AtletaModel.pk_id atleta = Some k
    /\ In atleta (atletas db)
    /\ AtletaModel.id atleta = id
    /\ outcome_of (patch env id atleta_up) db = Return atleta'
    /\ db' = set_atletas db
               (map (fun r => if AtletaModel.has_pk k r then atleta' else r)
                    (atletas db))
               (atletas_pk_seq db).
Proof.
  destruct (first_filter_in _ _ _ found) as [Hin Hid].
  apply N.eqb_eq in Hid.
  destruct (distinct_pks_has_pk _ _ keys Hin) as (k & Hk).
  exists k. repeat split; try assumption.
  - unfold outcome_of.
    rewrite (patch_existing_run env id atleta_up db atleta k found keys Hk).
    cbv zeta. rewrite no_fault, cpf_free.
    destruct (model_dump_exclude_unset atleta_up) eqn:Hitems; [|reflexivity].
    cbn [fst]. f_equal. symmetry. now apply no_item_no_change.
  - unfold db', database_after.
    rewrite (patch_existing_run env id atleta_up db atleta k found keys Hk).
    cbv zeta. rewrite no_fault, cpf_free.
    destruct (model_dump_exclude_unset atleta_up) eqn:Hitems; [|reflexivity].
    cbn [snd database]. unfold atleta'.
    rewrite (no_item_no_change _ _ Hitems).
    rewrite (distinct_pks_replace_same _ _ _ keys Hin (has_pk_of _ _ Hk)).
    destruct db; reflexivity.
Qed.

Lemma patch_accepted_first :
  scalars_first (filter (fun a => N.eqb (AtletaModel.id a) id) (atletas db'))
  = Some atleta'.
Proof.
  destruct patch_accepted_database as (k & Hk & Hin & Hid & Hout & Hdb).
  rewrite Hdb. unfold set_atletas. cbn [atletas].
  rewrite filter_map_commute.
  - unfold scalars_first in found.
    destruct (filter _ (atletas db)) as [|x rest]; [discriminate|].
    injection found as ->. cbn [map scalars_first hd_error].
    now rewrite (has_pk_of _ _ Hk).
  - intros r Hr.
    now rewrite (replace_keeps_ids _ atleta atleta' k keys Hin
                   (has_pk_of _ _ Hk) eq_refl r Hr).
Qed.

(** X12: update, then fetch.  After an accepted [patch] (the identifier is
    stored, the primary keys are distinct, the store does not fail and no
    other row holds the resulting [cpf]), [query_by_id] on the same [id]
    returns the patched row that [patch] returned. *)
Theorem patch_then_query_by_id :
  outcome_of (patch env id atleta_up) db = Return atleta'
  /\ outcome_of (query_by_id id) db' = Return atleta'.
Proof.
  destruct patch_accepted_database as (k & Hk & Hin & Hid & Hout & Hdb).
  split; [exact Hout|].
  unfold outcome_of. rewrite query_by_id_run. cbv zeta.
  now rewrite patch_accepted_first.
Qed.

(** X13: an accepted [patch] sent a second time (the store not failing)
    returns the same row and leaves the database as the first one left
    it. *)
Theorem patch_twice (env2 : Env) :
  commit_fault env2 = false ->
  outcome_of (patch env2 id atleta_up) db' = Return atleta'
  /\ database_after (patch env2 id atleta_up) db' = db'.
Proof.
  intros Hfault2.
  destruct patch_accepted_database as (k & Hk & Hin & Hid & Hout & Hdb).
  pose proof (has_pk_of _ _ Hk) as Hhas.
  assert (Hk' : AtletaModel.pk_id atleta' = Some k) by exact Hk.
  assert (Hfound' :
            scalars_first (filter (fun a => N.eqb (AtletaModel.id a) id)
                                  (atletas db')) = Some atleta').
  { exact patch_accepted_first. }
  assert (Hkeys' : distinct_pks (atletas db') = true).
  { rewrite Hdb. unfold set_atletas. cbn [atletas].
    rewrite distinct_pks_map; [exact keys|].
    intros r Hr. destruct (AtletaModel.has_pk k r) eqn:Hkr; [|reflexivity].
    now rewrite (has_pk_inv _ _ Hkr). }
  pose proof (patch_existing_run env2 id atleta_up db' atleta' k
                Hfound' Hkeys' Hk') as Hrun.
  cbv zeta in Hrun. rewrite Hfault2 in Hrun.
  unfold atleta' in Hrun at 3 4 5 6. rewrite sparse_patch_twice in Hrun.
  fold atleta' in Hrun.
  assert (Hfree' : cpf_held_by_other (AtletaModel.cpf atleta') atleta'
                                     (atletas db') = false).
  { rewrite Hdb. unfold set_atletas. cbn [atletas].
    rewrite (cpf_held_after_replace _ _ k Hk'). exact cpf_free. }
  rewrite Hfree' in Hrun.
  unfold outcome_of, database_after. rewrite Hrun.
  destruct (model_dump_exclude_unset atleta_up); [split; reflexivity|].
  cbn [fst snd database]. split; [reflexivity|].
  rewrite Hdb. unfold set_atletas.
  cbn [atletas atletas_pk_seq negative_bounds categorias centros_treinamento].
  rewrite (replace_twice _ _ k (has_pk_of _ _ Hk')). reflexivity.
Qed.
End PatchAccepted.

Lemma patch_then_query_by_id_witness :
  outcome_of (query_by_id 6%N)
             (database_after (patch Sample.env 6%N (Sample.only_peso 71%float))
                             Sample.db)
  = Return (AtletaModel.mk (Some 2) 6%N 101 "Bia" "222" 71%float 1.5%float
                           "F" 1 7).
Proof.
  exact (proj2 (patch_then_query_by_id
                  Sample.env 6%N (Sample.only_peso 71%float) Sample.db
                  Sample.bia eq_refl eq_refl eq_refl eq_refl)).
Defined.

Lemma patch_twice_witness :
  let db1 := database_after (patch Sample.env 6%N (Sample.only_peso 71%float))
                            Sample.db in
  database_after (patch Sample.env 6%N (Sample.only_peso 71%float)) db1 = db1.
Proof.
  exact (proj2 (patch_twice
                  Sample.env 6%N (Sample.only_peso 71%float) Sample.db
                  Sample.bia eq_refl eq_refl eq_refl eq_refl Sample.env
                  eq_refl)).
Defined.

(** *** Deleting *)

Lemma filter_out_pk (before after : list AtletaModel.t) (a : AtletaModel.t)
      (k : Z) :
  distinct_pks (before ++ a :: after) = true ->
  AtletaModel.pk_id a = Some k ->
  filter (fun r => negb (AtletaModel.has_pk k r)) (before ++ a :: after)
  = before ++ after.
Proof.
  intros Hpks Hk. induction before as [|x before IH]; simpl in *.
  - rewrite Hk in Hpks. apply andb_prop in Hpks. destruct Hpks as [Hfree _].
    apply negb_true_iff in Hfree. rewrite (has_pk_of _ _ Hk). cbn [negb].
    clear - Hfree. induction after as [|y after IH]; simpl in *; [reflexivity|].
    apply orb_false_elim in Hfree. destruct Hfree as [Hy Hfree].
    rewrite Hy. cbn [negb]. now rewrite IH.
  - apply andb_prop in Hpks. destruct Hpks as [Hx Hrest].
    rewrite (IH Hrest).
    destruct (AtletaModel.pk_id x) as [kx|] eqn:Hkx; [|discriminate].
    apply negb_true_iff in Hx. rewrite existsb_app in Hx.
    apply orb_false_elim in Hx. destruct Hx as [_ Hx]. simpl in Hx.
    apply orb_false_elim in Hx. destruct Hx as [Ha _].
    unfold AtletaModel.has_pk in *. rewrite Hk in Ha. rewrite Hkx.
    rewrite Z.eqb_sym, Ha. reflexivity.
Qed.

(** X14: [delete] on a stored [id], in a table with distinct primary keys
    and a store that does not fail, returns (status 204) and removes exactly
    one row, the first one with that [id]: the rows before it and after it
    stay, in their order, and so do the categories, the training centres and
    the key sequence. *)
Theorem delete_removes_one_row (env : Env) (id : UUID) (db : Database) :
  id_registered db id = true ->
  distinct_pks (atletas db) = true ->
  commit_fault env = false ->
  exists atleta before after,
    atletas db = before ++ atleta :: after
    /\ AtletaModel.id atleta = id
    /\ (forall r, In r before -> AtletaModel.id r <> id)
    /\ outcome_of (delete env id) db = Return tt
    /\ database_after (delete env id) db
       = mkDatabase (negative_bounds db) (categorias db)
                    (centros_treinamento db) (before ++ after)
                    (atletas_pk_seq db)
    /\ calls_of (delete env id) db
       = [Execute (SelectAtleta (filter_ select_AtletaModel (IdEq id)));
          Delete atleta; Commit].
Proof.
  intros Hreg Hpks Hfault.
  destruct (first_by_id_split _ _ Hreg)
    as (atleta & before & after & Heq & Hid & Hbefore & Hfirst).
  exists atleta, before, after.
  assert (Hin : In atleta (atletas db))
    by (rewrite Heq; apply in_or_app; right; now left).
  destruct (distinct_pks_has_pk _ _ Hpks Hin) as (k & Hk).
  assert (Hex : existsb (AtletaModel.has_pk k) (atletas db) = true).
  { apply existsb_exists. exists atleta. split; [exact Hin|].
    now apply has_pk_of. }
  unfold outcome_of, database_after, calls_of.
  rewrite delete_run. cbv zeta. rewrite Hfirst, Hfault.
  unfold delete_row. rewrite Hk, Hex. cbn [negb fst snd database calls app].
  repeat split; try assumption.
  unfold set_atletas. f_equal.
  rewrite Heq in Hpks |- *. exact (filter_out_pk _ _ _ _ Hpks Hk).
Qed.

Lemma delete_removes_one_row_witness :
  outcome_of (delete Sample.env 5%N) Sample.db = Return tt
  /\ atletas (database_after (delete Sample.env 5%N) Sample.db)
     = [Sample.bia].
Proof.
  destruct (delete_removes_one_row Sample.env 5%N Sample.db
              eq_refl eq_refl eq_refl)
    as (a & before & after & Heq & _ & Hbefore & Hout & Hdb & _).
  split; [exact Hout|]. rewrite Hdb. cbn [atletas].
  destruct before as [|x before].
  - injection Heq as <- <-. reflexivity.
  - injection Heq as <- _. exfalso. apply (Hbefore Sample.ana); [now left|].
    reflexivity.
Defined.

Lemma delete_removes_id (env : Env) (id : UUID) (db : Database) :
  distinct_ids (atletas db) = true ->
  outcome_of (delete env id) db = Return tt ->
  id_registered (database_after (delete env id) db) id = false.
Proof.
  intros Hids Hret.
  unfold outcome_of, database_after in *. rewrite delete_run in *.
  cbv zeta in *.
  destruct (scalars_first _) as [atleta|] eqn:Hfirst; [|discriminate Hret].
  destruct (commit_fault env); [discriminate Hret|].
  unfold delete_row in *.
  destruct (AtletaModel.pk_id atleta) as [k|] eqn:Hk; [|discriminate Hret].
  destruct (existsb (AtletaModel.has_pk k) (atletas db));
    [|discriminate Hret].
  cbn [negb fst snd database]. unfold id_registered, set_atletas.
  cbn [atletas].
  destruct (first_filter_in _ _ _ Hfirst) as [Hin Hid].
  apply N.eqb_eq in Hid.
  apply not_true_is_false. intros H. apply existsb_exists in H.
  destruct H as (r & Hr & Hrid). apply filter_In in Hr.
  destruct Hr as [Hrin Hrk]. apply N.eqb_eq in Hrid.
  assert (r = atleta)
    by (apply (distinct_ids_same _ _ _ Hids Hin Hrin); congruence).
  subst r. rewrite (has_pk_of _ _ Hk) in Hrk. discriminate.
Qed.

(** X15: delete twice.  In a table with distinct identifiers, once [delete]
    has returned for an [id], a second [delete] of that [id] raises the 404
    error after its look-up and changes nothing. *)
Theorem delete_twice (env env2 : Env) (id : UUID) (db : Database) :
  distinct_ids (atletas db) = true ->
  outcome_of (delete env id) db = Return tt ->
  let db1 := database_after (delete env id) db in
  serve (delete env2 id) db1
  = (Raise (HTTPException 404
              (fstring ["Atleta não encontrado com o ID: ";
                        str_uuid id]%string)),
     mkSession db1 [] [] []
       [Execute (SelectAtleta (filter_ select_AtletaModel (IdEq id)))]).
Proof.
  intros Hids Hret db1.
  pose proof (delete_removes_id env id db Hids Hret) as Hgone.
  fold db1 in Hgone. rewrite delete_run. cbv zeta.
  rewrite (first_filter_none _ _ Hgone). reflexivity.
Qed.

Lemma delete_twice_witness :
  response_status HTTP_204_NO_CONTENT
    (outcome_of (delete Sample.env 6%N)
                (database_after (delete Sample.env 6%N) Sample.db)) = 404.
Proof.
  unfold outcome_of at 1.
  rewrite (delete_twice Sample.env Sample.env 6%N Sample.db eq_refl eq_refl).
  reflexivity.
Defined.

(** *** A write on one athlete and the fetch of another *)

Lemma query_by_id_same_first (db1 db2 : Database) (id : UUID) :
  scalars_first (filter (fun a => N.eqb (AtletaModel.id a) id) (atletas db1))
  = scalars_first (filter (fun a => N.eqb (AtletaModel.id a) id)
                          (atletas db2)) ->
  outcome_of (query_by_id id) db1 = outcome_of (query_by_id id) db2.
Proof.
  intros H. unfold outcome_of. rewrite !query_by_id_run. cbv zeta. rewrite H.
  clear H. destruct (scalars_first _); reflexivity.
Qed.

Lemma filter_filter_absorb {A} (p q : A -> bool) (l : list A) :
  (forall x, In x l -> p x = true -> q x = true) ->
  filter p (filter q l) = filter p l.
Proof.
  induction l as [|x l IH]; simpl; [reflexivity|]. intros H.
  destruct (q x) eqn:Hq; simpl.
  - rewrite IH by auto. reflexivity.
  - destruct (p x) eqn:Hp.
    + rewrite (H x) in Hq by auto. discriminate.
    + apply IH. auto.
Qed.

(** X16: a write on one athlete leaves the fetch of every other athlete as
    it was.  Whatever their outcome: [post] does not change what
    [query_by_id] answers for an [id] other than the one generated, or
    already stored; in a table with distinct primary keys, [patch] and
    [delete] of an [id] do not change what [query_by_id] answers for another
    [id]. *)
Theorem writes_leave_other_fetches (db : Database) (other : UUID) :
  (forall env atleta_in,
      uuid4 env <> other \/ id_registered db other = true ->
      outcome_of (query_by_id other) (database_after (post env atleta_in) db)
      = outcome_of (query_by_id other) db)
  /\
  (distinct_pks (atletas db) = true ->
   (forall env id atleta_up,
       id <> other ->
       outcome_of (query_by_id other)
                  (database_after (patch env id atleta_up) db)
       = outcome_of (query_by_id other) db)
   /\
   (forall env id,
       id <> other ->
       outcome_of (query_by_id other) (database_after (delete env id) db)
       = outcome_of (query_by_id other) db)).
Proof.
  split; [|intros Hpks; split].
  - intros env atleta_in Hother. apply query_by_id_same_first.
    destruct (post_database_after env atleta_in db)
      as [->|(m & Hpk & Hid & Hins)]; [reflexivity|].
    unfold insert_row in Hins.
    destruct (cpf_held_by_other _ _ _); [discriminate|].
    destruct (negb _); [discriminate|].
    injection Hins as <-. unfold set_atletas. cbn [atletas].
    rewrite filter_app. cbn [filter AtletaModel.with_pk AtletaModel.id].
    rewrite Hid. destruct Hother as [Hne|Hreg].
    + rewrite (proj2 (N.eqb_neq _ _) Hne). now rewrite app_nil_r.
    + destruct (first_filter_some _ _ Hreg) as (x & Hx & _).
      unfold scalars_first in *.
      destruct (filter _ (atletas db)); [discriminate|reflexivity].
  - intros env id atleta_up Hne. apply query_by_id_same_first.
    destruct (patch_database_after env id atleta_up db Hpks)
      as [->|(atleta & Hin & Hid & Hup)]; [reflexivity|].
    unfold update_row in Hup.
    destruct (AtletaModel.pk_id (sparse_patch atleta_up atleta)) as [k|] eqn:Hk;
      [|discriminate].
    destruct (negb _); [discriminate|].
    destruct (cpf_held_by_other _ _ _); [discriminate|].
    injection Hup as <-. unfold set_atletas. cbn [atletas]. f_equal.
    assert (Hhas : AtletaModel.has_pk k atleta = true)
      by (apply has_pk_of; exact Hk).
    rewrite filter_map_commute.
    + rewrite <- (map_id (filter _ (atletas db))) at 2.
      apply map_ext_in. intros r Hr. apply filter_In in Hr.
      destruct Hr as [Hr Hrid]. apply N.eqb_eq in Hrid.
      destruct (AtletaModel.has_pk k r) eqn:Hkr; [|reflexivity].
      rewrite (distinct_pks_same _ _ _ _ Hpks Hin Hr Hhas Hkr) in Hrid.
      congruence.
    + intros r Hr. cbv beta.
      now rewrite (replace_keeps_ids _ atleta (sparse_patch atleta_up atleta)
                     k Hpks Hin Hhas eq_refl r Hr).
  - intros env id Hne. apply query_by_id_same_first.
    destruct (delete_database_after env id db)
      as [->|(atleta & Hin & Hid & Hdel)]; [reflexivity|].
    unfold delete_row in Hdel.
    destruct (AtletaModel.pk_id atleta) as [k|] eqn:Hk; [|discriminate].
    destruct (negb _); [discriminate|].
    injection Hdel as <-. unfold set_atletas. cbn [atletas]. f_equal.
    apply filter_filter_absorb. intros r Hr Hrid. apply N.eqb_eq in Hrid.
    apply negb_true_iff, not_true_is_false. intros Hkr.
    rewrite (distinct_pks_same _ _ _ _ Hpks Hin Hr (has_pk_of _ _ Hk) Hkr)
      in Hrid.
    congruence.
Qed.

Lemma writes_leave_other_fetches_witness :
  outcome_of (query_by_id 5%N)
             (database_after (delete Sample.env 6%N) Sample.db)
  = Return Sample.ana
  /\ outcome_of (query_by_id 5%N)
                (database_after
                   (patch Sample.env 6%N (Sample.only_peso 71%float))
                   Sample.db)
     = Return Sample.ana
  /\ outcome_of (query_by_id 5%N)
                (database_after
                   (post Sample.env (Sample.atleta_in "333" "RX" "Box1"))
                   Sample.db)
     = Return Sample.ana.
Proof.
  destruct (writes_leave_other_fetches Sample.db 5%N) as [Hpost Hrest].
  destruct (Hrest eq_refl) as [Hpatch Hdelete].
  split; [|split].
  - rewrite (Hdelete Sample.env 6%N); [reflexivity|discriminate].
  - rewrite (Hpatch Sample.env 6%N); [reflexivity|discriminate].
  - rewrite Hpost; [reflexivity|]. right. reflexivity.
Defined.
